(** * Week3/coding_assistant.py: the chat turn of the coding assistant

    A shallow embedding of the message serializer, the conversation driver,
    the tool dispatcher, the response evaluator and the handler of one user
    input, with the properties the design document states about them. *)

From Stdlib Require Import Ascii Arith NArith ZArith Lia QArith.
From stdpp Require Import base option list strings gmap.

(** * Data model *)

(** [tool_call.function]: the name and the raw argument text. *)
Record FunctionCall := {
  fn_name : string;
  fn_arguments : string;
}.

(** One entry of [response_message.tool_calls]. *)
Record ToolCall := {
  tc_id : string;
  tc_function : FunctionCall;
}.

(** The values a message dictionary holds under its keys: [None], a string,
    or the list of tool calls. *)
Inductive value :=
| VNone
| VStr (s : string)
| VToolCalls (calls : list ToolCall).

(** A Python exception caught by [except Exception as e], kept as [str(e)]. *)
Inductive outcome (A : Type) :=
| Returned (a : A)
| Raised (e : string).
Arguments Returned {A} a.
Arguments Raised {A} e.

(** The message object of a Groq response.  Its declared fields are [role],
    [content : Optional[str]] and [tool_calls : Optional[List[...]]]; a field
    is [None] here when the response did not set it, so that
    [model_dump(exclude_unset=True)] leaves it out.  [cm_extra] holds whatever
    further fields the response carried (the model allows extras). *)
Record ChatCompletionMessage := {
  cm_role : option string;
  cm_content : option (option string);
  cm_tool_calls : option (option (list ToolCall));
  cm_extra : gmap string value;
}.

(** [message.content] and [message.tool_calls]: an unset field reads as its
    default [None]. *)
Definition content (m : ChatCompletionMessage) : option string :=
  default None (cm_content m).

Definition tool_calls (m : ChatCompletionMessage) : option (list ToolCall) :=
  default None (cm_tool_calls m).

Definition dump_field {A : Type} (key : string) (to_value : A → value)
    (field : option A) (d : gmap string value) : gmap string value :=
  match field with
  | Some a => <[key := to_value a]> d
  | None => d
  end.

(** [message.model_dump(exclude_unset=True)] *)
Definition model_dump (m : ChatCompletionMessage) : gmap string value :=
  dump_field "tool_calls" (from_option VToolCalls VNone) (cm_tool_calls m)
    (dump_field "content" (from_option VStr VNone) (cm_content m)
      (dump_field "role" VStr (cm_role m) (cm_extra m))).

(** A message as [serialize_message] receives it: a response object (it has
    the attribute [model_dump]) or a plain dictionary. *)
Inductive Message :=
| Obj (m : ChatCompletionMessage)
| Dict (d : gmap string value).

(** The fields a message carries, whichever its representation. *)
Definition fields (message : Message) : gmap string value :=
  match message with
  | Obj m => model_dump m
  | Dict d => d
  end.

(** [d.get(key)] *)
Definition dict_get (d : gmap string value) (key : string) : value :=
  default VNone (d !! key).

(** [if key in src: dst[key] = src[key]] *)
Definition copy_key (key : string) (src dst : gmap string value)
    : gmap string value :=
  match src !! key with
  | Some v => <[key := v]> dst
  | None => dst
  end.

(** * Message Serializer *)

Definition serialize_message (message : Message) : gmap string value :=
  match message with
  | Obj m =>
      let msg_dict := model_dump m in
      let serialized :=
        <["content" := dict_get msg_dict "content"]>
          (<["role" := dict_get msg_dict "role"]> ∅) in
      copy_key "tool_calls" msg_dict serialized
  | Dict message =>
      let serialized :=
        <["content" := dict_get message "content"]>
          (<["role" := dict_get message "role"]> ∅) in
      copy_key "name" message
        (copy_key "tool_call_id" message
          (copy_key "tool_calls" message serialized))
  end.

(** The field set the API accepts. *)
Definition canonical_keys : gset string :=
  {[ "role"; "content"; "tool_calls"; "tool_call_id"; "name" ]}.

(** * The clock tool *)

(** A naive [datetime] (no time zone), as [datetime.now()] returns it. *)
Record datetime := {
  year : N;
  month : N;
  day : N;
  hour : N;
  minute : N;
  second : N;
  microsecond : N;
}.




(** The decimal digit for the units of [n]. *)
Definition digit (n : N) : ascii := ascii_of_N (48 + n mod 10).

(** ["%02d"], ["%04d"] and ["%06d"] *)
Definition pad2 (n : N) (rest : string) : string :=
  String (digit (n / 10)) (String (digit n) rest).

Definition pad4 (n : N) (rest : string) : string :=
  pad2 (n / 100) (pad2 n rest).

Definition pad6 (n : N) (rest : string) : string :=
  pad2 (n / 10000) (pad4 n rest).

(** [d.isoformat()]: [YYYY-MM-DDTHH:MM:SS], followed by [.ffffff] when the
    microsecond is not zero. *)
Definition isoformat (d : datetime) : string :=
  pad4 (year d) (String "-" (pad2 (month d) (String "-" (pad2 (day d)
    (String "T" (pad2 (hour d) (String ":" (pad2 (minute d) (String ":"
      (pad2 (second d)
        (if (microsecond d =? 0)%N then EmptyString
         else String "." (pad6 (microsecond d) EmptyString)))))))))))).

(** The double quote and the backslash. *)
Definition dquote : ascii := "034"%char.
Definition backslash : ascii := "092"%char.

(** Texts are sequences of code points below 256, one per character. *)

(** A character [json.dumps] writes as it is: printable ASCII other than
    the quote and the backslash. *)
Definition plain (c : ascii) : bool :=
  ((32 <=? N_of_ascii c) && (N_of_ascii c <=? 126))%N
  && negb (Ascii.eqb c dquote) && negb (Ascii.eqb c backslash).


(** A hexadecimal digit, in lower case. *)
Definition hex_digit (n : N) : ascii :=
  if (n <? 10)%N then ascii_of_N (48 + n) else ascii_of_N (87 + n).

(** The body of a JSON string literal, as [json.dumps] writes it with
    [ensure_ascii]: the quote, the backslash and the control characters
    [\b], [\f], [\n], [\r], [\t] get their short escape, a printable
    ASCII character is kept, and any other code point is written as
    [\u00xx]. *)
Fixpoint json_escape (s : string) : string :=
  match s with
  | EmptyString => EmptyString
  | String c s' =>
      if Ascii.eqb c dquote then String backslash (String dquote (json_escape s'))
      else if Ascii.eqb c backslash then
        String backslash (String backslash (json_escape s'))
      else if Ascii.eqb c "008"%char then String backslash (String "b" (json_escape s'))
      else if Ascii.eqb c "012"%char then String backslash (String "f" (json_escape s'))
      else if Ascii.eqb c "010"%char then String backslash (String "n" (json_escape s'))
      else if Ascii.eqb c "013"%char then String backslash (String "r" (json_escape s'))
      else if Ascii.eqb c "009"%char then String backslash (String "t" (json_escape s'))
      else if plain c then String c (json_escape s')
      else
        String backslash (String "u" (String "0" (String "0"
          (String (hex_digit (N_of_ascii c / 16))
            (String (hex_digit (N_of_ascii c mod 16)) (json_escape s'))))))
  end.

Definition json_string (s : string) : string :=
  String dquote (json_escape s +:+ String dquote EmptyString).

Fixpoint json_members (items : list (string * string)) : string :=
  match items with
  | [] => EmptyString
  | [(k, v)] => json_string k +:+ ": " +:+ json_string v
  | (k, v) :: rest =>
      json_string k +:+ ": " +:+ json_string v +:+ ", " +:+ json_members rest
  end.

(** [json.dumps] of a dictionary from strings to strings, with the default
    separators. *)
Definition json_dumps (items : list (string * string)) : string :=
  "{" +:+ json_members items +:+ "}".

(** [get_current_datetime()], given what [datetime.now()] reads. *)
Definition get_current_datetime (now : datetime) : string :=
  json_dumps [("current_datetime", isoformat now)].

(** ** Reading the tool's output back *)



















(** * The session and the outside world *)

(** One declared tool of [tools_schema]. *)
Record FunctionSchema := {
  fs_name : string;
  fs_description : string;
  fs_properties : list string;
  fs_required : list string;
}.

(** The keyword arguments of [client.chat.completions.create]. *)
Record Request := {
  req_model : string;
  req_messages : list (gmap string value);
  req_temperature : Q;
  req_tools : option (list FunctionSchema);
  req_tool_choice : option string;
}.

(** [Groq(api_key=...)] *)
Record Groq := { api_key : string }.

(** What the script shows to the user. *)
Inductive ui_event :=
| st_warning (text : string)
| st_error (text : string)
| st_markdown (text : string)
| st_info (text : value).

(** [st.session_state] ([messages], [groq_api_key]) together with the trace of
    what the script did: the completion requests it sent, what it showed, and
    how many times a tool body ran. *)
Record Session := {
  messages : list (gmap string value);
  groq_api_key : option string;
  requests : list Request;
  screen : list ui_event;
  tool_runs : nat;
}.

(** A step of the script: a result and the session after it. *)
Definition Script (A : Type) : Type := Session → A * Session.

Definition ret {A : Type} (a : A) : Script A := λ s, (a, s).

Definition bind {A B : Type} (c : Script A) (k : A → Script B) : Script B :=
  λ s, let '(a, s') := c s in k a s'.

Notation "x <- c ;; k" := (bind c (λ x, k))
  (at level 100, c at next level, right associativity).
Notation "c ;; k" := (bind c (λ _, k))
  (at level 100, right associativity).

(** [st.session_state.messages.append(message)] *)
Definition append (message : gmap string value) : Script unit :=
  λ s, (tt, {| messages := messages s ++ [message];
               groq_api_key := groq_api_key s;
               requests := requests s;
               screen := screen s;
               tool_runs := tool_runs s |}).

Definition show (event : ui_event) : Script unit :=
  λ s, (tt, {| messages := messages s;
               groq_api_key := groq_api_key s;
               requests := requests s;
               screen := screen s ++ [event];
               tool_runs := tool_runs s |}).

(** [st.session_state.groq_api_key = key] *)
Definition store_key (key : string) : Script unit :=
  λ s, (tt, {| messages := messages s;
               groq_api_key := Some key;
               requests := requests s;
               screen := screen s;
               tool_runs := tool_runs s |}).

(** [st.session_state.messages = []] *)
Definition clear_chat_history : Script unit :=
  λ s, (tt, {| messages := [];
               groq_api_key := groq_api_key s;
               requests := requests s;
               screen := screen s;
               tool_runs := tool_runs s |}).

Definition get_messages : Script (list (gmap string value)) :=
  λ s, (messages s, s).

Definition get_key : Script (option string) := λ s, (groq_api_key s, s).

(** Truth of a string, and of an optional string, in a condition. *)
Definition nonempty (s : string) : bool :=
  match s with EmptyString => false | String _ _ => true end.

Definition truthy (o : option string) : bool :=
  match o with Some s => nonempty s | None => false end.

Definition quote : string := String dquote EmptyString.

Definition DEFAULT_MODEL : string := "llama3-8b-8192".
Definition EVALUATION_MODEL : string := "llama3-8b-8192".

Definition system_prompt : gmap string value :=
  <["role" := VStr "system"]> (<["content" := VStr
"You are a specialized Coding Assistant AI with access to previous conversation history.
        Your primary function is to help users with programming and coding-related questions.
        
        You have access to the entire conversation history and should use it to provide context-aware responses.
        Remember all previous interactions and function calls made during this conversation.
        
        Strictly adhere to the following rules:
        1. ONLY answer questions directly related to coding, programming languages, algorithms, data structures, software development tools, and concepts.
        2. If the user asks a question NOT related to coding, politely refuse to answer.
        3. Provide clear, concise, and accurate coding explanations or code snippets.
        4. Use the get_current_datetime function when needed for time-sensitive coding questions.
        5. Reference previous conversation context when answering follow-up questions.
        "]> ∅).

Definition eval_system_prompt (user_query assistant_response : string)
    : gmap string value :=
  <["role" := VStr "system"]> (<["content" := VStr (
    "Evaluate the assistant's response:
        User Query: " +:+
    quote +:+
    user_query +:+
    quote +:+
    "
        Assistant Response: " +:+
    quote +:+
    assistant_response +:+
    quote +:+
    "

        Criteria:
        1. **Coding Relevance:** Was the response coding-related? (Yes/No)
        2. **Helpfulness:** If relevant, how helpful? (1-5 or NA)
        3. **Refusal Appropriateness:** If irrelevant, did the assistant refuse properly? (Yes/No/NA)

        Provide evaluation starting with " +:+
    quote +:+
    "Evaluation:" +:+
    quote +:+
    ".
        ")]> ∅).

Definition tools_schema : list FunctionSchema :=
  [ {| fs_name := "get_current_datetime";
       fs_description := "Get the current date and time";
       fs_properties := [];
       fs_required := [] |} ].

(** The body of a registered tool: what it answers when the clock reads the
    given time, or the exception it raises. *)
Abbreviation Tool := (datetime → outcome string).

(** [{"tool_call_id": ..., "role": "tool", "name": ..., "content": ...}] *)
Definition tool_message (tool_call_id function_name text : string)
    : gmap string value :=
  <["tool_call_id" := VStr tool_call_id]> (<["role" := VStr "tool"]>
    (<["name" := VStr function_name]> (<["content" := VStr text]> ∅))).

(** [{"role": role, "content": text}] *)
Definition plain_message (role text : string) : gmap string value :=
  <["role" := VStr role]> (<["content" := VStr text]> ∅).

(** [response.choices[0].message] inside the [try] block: the request may
    have raised, and an empty [choices] raises [IndexError]. *)
Definition first_choice (response : outcome (list ChatCompletionMessage))
    : outcome ChatCompletionMessage :=
  match response with
  | Returned (message :: _) => Returned message
  | Returned [] => Raised "list index out of range"
  | Raised e => Raised e
  end.

Section Script.

(** [os.environ.get("GROQ_API_KEY")] *)
Variable environ_key : option string.

(** The hosted API: the answer to the [n]-th request of the session, made
    with the given client.  It returns the messages of
    [response.choices], or raises. *)
Variable create : Groq → nat → Request → outcome (list ChatCompletionMessage).

(** [datetime.now()] at the [n]-th run of a tool body. *)
Variable now : nat → datetime.

(** The registry the dispatcher looks names up in. *)
Variable available_tools : gmap string Tool.

Definition send (client : Groq) (request : Request)
    : Script (outcome (list ChatCompletionMessage)) :=
  λ s, (create client (length (requests s)) request,
        {| messages := messages s;
           groq_api_key := groq_api_key s;
           requests := requests s ++ [request];
           screen := screen s;
           tool_runs := tool_runs s |}).

Definition run_tool (tool : Tool) : Script (outcome string) :=
  λ s, (tool (now (tool_runs s)),
        {| messages := messages s;
           groq_api_key := groq_api_key s;
           requests := requests s;
           screen := screen s;
           tool_runs := S (tool_runs s) |}).

Definition get_groq_client : Script (option Groq) :=
  session_key <- get_key ;;
  let api_key := environ_key in
  let api_key :=
    match session_key with
    | Some key => if negb (truthy api_key) then Some key else api_key
    | None => api_key
    end in
  match api_key with
  | Some key =>
      if nonempty key then ret (Some {| api_key := key |})
      else
        show (st_warning "Groq API Key not found. Please enter it in the sidebar.") ;;
        ret None
  | None =>
      show (st_warning "Groq API Key not found. Please enter it in the sidebar.") ;;
      ret None
  end.

Definition run_conversation (client : Groq) (messages : list Message)
    (model : string) (tools : option (list FunctionSchema))
    (tool_choice : string) : Script (option ChatCompletionMessage) :=
  let api_messages := system_prompt :: (serialize_message <$> messages) in
  response <- send client {| req_model := model;
                             req_messages := api_messages;
                             req_temperature := 7 # 10;
                             req_tools := tools;
                             req_tool_choice := Some tool_choice |} ;;
  match first_choice response with
  | Returned message => ret (Some message)
  | Raised e =>
      show (st_error ("Error during conversation: " +:+ e)) ;;
      ret None
  end.

Definition evaluate_response (client : Groq)
    (user_query assistant_response model : string) : Script value :=
  response <- send client {| req_model := model;
                             req_messages :=
                               [eval_system_prompt user_query assistant_response];
                             req_temperature := 1 # 10;
                             req_tools := None;
                             req_tool_choice := None |} ;;
  match first_choice response with
  | Returned message => ret (from_option VStr VNone (content message))
  | Raised e => ret (VStr ("Evaluation failed: " +:+ e))
  end.

(** The sidebar's credential box and the initialisation of the client. *)
Definition initialise (groq_api_key_input : string) : Script (option Groq) :=
  match environ_key with
  | Some _ => get_groq_client
  | None =>
      if nonempty groq_api_key_input then
        store_key groq_api_key_input ;; get_groq_client
      else ret None
  end.

(** The body of the loop over [response_message.tool_calls]. *)
Definition dispatch (tool_call : ToolCall) : Script unit :=
  let function_name := fn_name (tc_function tool_call) in
  let tool_call_id := tc_id tool_call in
  match available_tools !! function_name with
  | Some tool =>
      function_response <- run_tool tool ;;
      match function_response with
      | Returned text => append (tool_message tool_call_id function_name text)
      | Raised e =>
          append (tool_message tool_call_id function_name ("Error: " +:+ e))
      end
  | None => ret tt
  end.

Fixpoint dispatch_all (calls : list ToolCall) : Script unit :=
  match calls with
  | [] => ret tt
  | tool_call :: rest => dispatch tool_call ;; dispatch_all rest
  end.

(** The reply taken from a completion: [full_response_content] and
    [assistant_message_for_state], left empty when the
    completion has no content. *)
Definition take_reply (message : option ChatCompletionMessage)
    : Script (string * option (gmap string value)) :=
  match message with
  | Some message =>
      match content message with
      | Some text =>
          if nonempty text then
            show (st_markdown text) ;;
            ret (text, Some (plain_message "assistant" text))
          else ret (EmptyString, None)
      | None => ret (EmptyString, None)
      end
  | None => ret (EmptyString, None)
  end.

(** The block under [with st.spinner("Thinking...")]. *)
Definition respond (client : Groq) (selected_model : string)
    : Script (string * option (gmap string value)) :=
  history <- get_messages ;;
  response_message <- run_conversation client (Dict <$> history)
                        selected_model (Some tools_schema) "auto" ;;
  match response_message with
  | Some response_message =>
      match tool_calls response_message with
      | Some (call :: calls) =>
          append (serialize_message (Obj response_message)) ;;
          dispatch_all (call :: calls) ;;
          history <- get_messages ;;
          final_response <- run_conversation client (Dict <$> history)
                              selected_model None "none" ;;
          take_reply final_response
      | _ => take_reply (Some response_message)
      end
  | None => ret (EmptyString, None)
  end.

(** The handler of [st.chat_input]: one user turn. *)
Definition handle_user_input (groq_client : option Groq)
    (selected_model : string) (prompt : option string) : Script unit :=
  match prompt with
  | Some prompt =>
      if nonempty prompt then
        match groq_client with
        | None =>
            show (st_error "Groq client not initialized. Please provide API key.")
        | Some client =>
            append (plain_message "user" prompt) ;;
            show (st_markdown prompt) ;;
            reply <- respond client selected_model ;;
            let '(full_response_content, assistant_message_for_state) := reply in
            match assistant_message_for_state with
            | Some assistant_message =>
                if nonempty full_response_content then
                  evaluation <- evaluate_response client prompt
                                  full_response_content EVALUATION_MODEL ;;
                  show (st_info evaluation) ;;
                  append (<["evaluation" := evaluation]> assistant_message)
                else ret tt
            | None => ret tt
            end
        end
      else ret tt
  | None => ret tt
  end.

End Script.

(** The registry of the source: the clock tool alone. *)
Definition available_tools : gmap string Tool :=
  {[ "get_current_datetime" := λ now, Returned (get_current_datetime now) ]}.

(** A session before its first run. *)
Definition fresh : Session :=
  {| messages := []; groq_api_key := None; requests := []; screen := [];
     tool_runs := 0 |}.

(** * Requests and scenarios *)

(** The request [run_conversation] sends for the given history. *)
Definition completion_request (messages : list (gmap string value))
    (model : string) (tools : option (list FunctionSchema))
    (tool_choice : string) : Request :=
  {| req_model := model;
     req_messages :=
       system_prompt :: (serialize_message <$> (Dict <$> messages));
     req_temperature := 7 # 10;
     req_tools := tools;
     req_tool_choice := Some tool_choice |}.

(** The request [evaluate_response] sends. *)
Definition evaluation_request (user_query assistant_response model : string)
    : Request :=
  {| req_model := model;
     req_messages := [eval_system_prompt user_query assistant_response];
     req_temperature := 1 # 10;
     req_tools := None;
     req_tool_choice := None |}.

(** The session once the handler has stored and shown the user's message. *)
Definition with_user_message (prompt : string) (s : Session) : Session :=
  snd ((append (plain_message "user" prompt) ;; show (st_markdown prompt)) s).

(** How many of the calls name a registered tool, that is, how many tool
    bodies the dispatcher runs for them. *)
Fixpoint registered_calls (registry : gmap string Tool)
    (calls : list ToolCall) : nat :=
  match calls with
  | [] => 0
  | tool_call :: rest =>
      match registry !! fn_name (tc_function tool_call) with
      | Some _ => S (registered_calls registry rest)
      | None => registered_calls registry rest
      end
  end.

(** A message of the store written by the dispatcher. *)
Definition is_tool_message (message : gmap string value) : Prop :=
  message !! "role" = Some (VStr "tool").

(** A response that carries a [name] besides its declared fields. *)
Definition named_response : ChatCompletionMessage :=
  {| cm_role := Some "assistant";
     cm_content := Some (Some "done");
     cm_tool_calls := None;
     cm_extra := {[ "name" := VStr "helper" ]} |}.

(** The model asks for the clock tool. *)
Definition clock_call : ToolCall :=
  {| tc_id := "call_1";
     tc_function := {| fn_name := "get_current_datetime";
                       fn_arguments := "{}" |} |}.

(** The model asks for a tool that was never declared. *)
Definition weather_call : ToolCall :=
  {| tc_id := "call_2";
     tc_function := {| fn_name := "get_weather"; fn_arguments := "{}" |} |}.

Definition tool_request (calls : list ToolCall) : ChatCompletionMessage :=
  {| cm_role := Some "assistant";
     cm_content := Some None;
     cm_tool_calls := Some (Some calls);
     cm_extra := ∅ |}.

Definition text_reply (text : string) : ChatCompletionMessage :=
  {| cm_role := Some "assistant";
     cm_content := Some (Some text);
     cm_tool_calls := None;
     cm_extra := ∅ |}.

Definition demo_client : Groq := {| api_key := "gsk_demo" |}.

(** 2024-02-29T13:05:09.001234 *)
Definition leap_day : datetime :=
  {| year := 2024; month := 2; day := 29; hour := 13; minute := 5;
     second := 9; microsecond := 1234 |}.

Definition stopped_clock (n : nat) : datetime := leap_day.

(** The API is unreachable. *)
Definition api_down (client : Groq) (n : nat) (request : Request)
    : outcome (list ChatCompletionMessage) :=
  Raised "connection refused".

(** The first completion asks for the given tools; every later request fails. *)
Definition api_fails_after_tools (calls : list ToolCall) (client : Groq)
    (n : nat) (request : Request) : outcome (list ChatCompletionMessage) :=
  match n with
  | 0 => Returned [tool_request calls]
  | _ => Raised "connection lost"
  end.

(** The first completion answers; the evaluation request fails. *)
Definition api_fails_on_evaluation (client : Groq) (n : nat)
    (request : Request) : outcome (list ChatCompletionMessage) :=
  match n with
  | 0 => Returned [text_reply "Use a for loop."]
  | _ => Raised "rate limit exceeded"
  end.

(** A registry whose clock tool raises. *)
Definition broken_tools : gmap string Tool :=
  {[ "get_current_datetime" := λ _, Raised "clock unavailable" ]}.

(** A session that already holds a key typed into the sidebar. *)
Definition keyed_session : Session :=
  {| messages := []; groq_api_key := Some "gsk_session"; requests := [];
     screen := []; tool_runs := 0 |}.

(** * Rendering the history *)

(** Truth of a stored value in a condition. *)
Definition truthy_value (v : value) : bool :=
  match v with
  | VNone => false
  | VStr s => nonempty s
  | VToolCalls [] => false
  | VToolCalls (_ :: _) => true
  end.

(** [v == text] *)
Definition is_text (v : value) (text : string) : bool :=
  match v with
  | VStr s => String.eqb s text
  | _ => false
  end.

(** What the loop over the history puts on the page for one message. *)
Inductive widget :=
| user_bubble (body : value)
| assistant_bubble (body : value) (evaluation : option value)
| tool_expander (name body : value).

(** The body of the loop over [st.session_state.messages]; [message[key]]
    raises [KeyError] when the key is missing. *)
Definition render (message : gmap string value) : outcome (list widget) :=
  match message !! "role" with
  | None => Raised "'role'"
  | Some role =>
      if is_text role "user" then
        match message !! "content" with
        | Some body => Returned [user_bubble body]
        | None => Raised "'content'"
        end
      else if is_text role "assistant"
              && truthy_value (dict_get message "content") then
        Returned [assistant_bubble (dict_get message "content")
                    (message !! "evaluation")]
      else if is_text role "tool" then
        match message !! "content" with
        | Some body =>
            Returned [tool_expander (default (VStr "Unknown") (message !! "name"))
                        body]
        | None => Raised "'content'"
        end
      else Returned []
  end.

Fixpoint display_history (messages : list (gmap string value))
    : outcome (list widget) :=
  match messages with
  | [] => Returned []
  | message :: rest =>
      match render message with
      | Returned widgets =>
          match display_history rest with
          | Returned more => Returned (widgets ++ more)
          | Raised e => Raised e
          end
      | Raised e => Raised e
      end
  end.

(** A message the loop can read: it has a role and a content. *)
Definition well_formed (message : gmap string value) : Prop :=
  is_Some (message !! "role") ∧ is_Some (message !! "content").

(** The calls that name a registered tool, in their order. *)
Fixpoint registered_only (registry : gmap string Tool)
    (calls : list ToolCall) : list ToolCall :=
  match calls with
  | [] => []
  | tool_call :: rest =>
      match registry !! fn_name (tc_function tool_call) with
      | Some _ => tool_call :: registered_only registry rest
      | None => registered_only registry rest
      end
  end.

(** * The whole script *)

(** How one pass over the script ends: [st.rerun()] was called, an exception
    went uncaught, or the page was drawn. *)
Inductive pass_result :=
| Rerun
| Crashed (e : string)
| Rendered (widgets : list widget).

(** What the user did before a pass: the key box, the model box, the clear
    button and the chat input. *)
Record Interaction := {
  typed_key : string;
  chosen_model : string;
  clear_clicked : bool;
  typed_prompt : option string;
}.

Section App.

Variable environ_key : option string.
Variable create : Groq → nat → Request → outcome (list ChatCompletionMessage).
Variable now : nat → datetime.
Variable registry : gmap string Tool.

(** The key box of the sidebar: [api_key_provided]. *)
Definition api_key_box (groq_api_key_input : string) : Script bool :=
  match environ_key with
  | Some _ => ret true
  | None =>
      if nonempty groq_api_key_input then
        store_key groq_api_key_input ;; ret true
      else ret false
  end.

(** One pass from the top of the script to its end. *)
Definition pass (i : Interaction) : Script pass_result :=
  api_key_provided <- api_key_box (typed_key i) ;;
  if clear_clicked i then
    clear_chat_history ;; ret Rerun
  else
    groq_client <- (if api_key_provided then get_groq_client environ_key
                    else ret None) ;;
    history <- get_messages ;;
    match display_history history with
    | Returned widgets =>
        handle_user_input create now registry groq_client (chosen_model i)
          (typed_prompt i) ;;
        ret (Rendered widgets)
    | Raised e => ret (Crashed e)
    end.

(** A pass and, after [st.rerun()], the pass that follows it: the key box
    keeps its text, the button is up and the chat input is empty. *)
Definition app (i : Interaction) : Script pass_result :=
  result <- pass i ;;
  match result with
  | Rerun => pass {| typed_key := typed_key i;
                     chosen_model := chosen_model i;
                     clear_clicked := false;
                     typed_prompt := None |}
  | _ => ret result
  end.

(** A session of the app: one run per interaction. *)
Fixpoint app_session (interactions : list Interaction)
    : Script (list pass_result) :=
  match interactions with
  | [] => ret []
  | i :: rest =>
      result <- app i ;;
      results <- app_session rest ;;
      ret (result :: results)
  end.

End App.

(** A store with an entry the loop over the history cannot read. *)
Definition broken_store : Session :=
  {| messages := [ {[ "content" := VStr "orphan" ]} ];
     groq_api_key := None; requests := []; screen := []; tool_runs := 0 |}.

(** The model answers the first request with a tool call and every later
    one with a text. *)
Definition api_tools_then_text (calls : list ToolCall) (client : Groq)
    (n : nat) (request : Request) : outcome (list ChatCompletionMessage) :=
  match n with
  | 0 => Returned [tool_request calls]
  | _ => Returned [text_reply "It is one o'clock."]
  end.

(** The model always answers with the same text. *)
Definition api_text (client : Groq) (n : nat) (request : Request)
    : outcome (list ChatCompletionMessage) :=
  Returned [text_reply "Use a for loop."].

(** * Properties of the serializer *)

Lemma lookup_copy_key (key k : string) (src dst : gmap string value) :
  copy_key key src dst !! k =
    if decide (k = key) then
      match src !! key with Some v => Some v | None => dst !! k end
    else dst !! k.
Proof.
  unfold copy_key. destruct (src !! key) as [v|] eqn:E.
  - rewrite lookup_insert. repeat case_decide; congruence.
  - case_decide; reflexivity.
Qed.

Lemma lookup_base (r c : value) (k : string) :
  (<["content" := c]> (<["role" := r]> (∅ : gmap string value))) !! k =
    if decide (k = "content") then Some c
    else if decide (k = "role") then Some r else None.
Proof.
  rewrite !lookup_insert, lookup_empty.
  repeat case_decide; congruence.
Qed.

Lemma canonical_keys_spec (k : string) :
  k ∈ canonical_keys ↔
    k = "role" ∨ k = "content" ∨ k = "tool_calls" ∨ k = "tool_call_id"
    ∨ k = "name".
Proof.
  unfold canonical_keys. rewrite !elem_of_union, !elem_of_singleton. tauto.
Qed.

(** What the dictionary branch stores under each key. *)
Lemma lookup_serialize_dict (d : gmap string value) (k : string) :
  serialize_message (Dict d) !! k =
    if decide (k = "role") then Some (dict_get d "role")
    else if decide (k = "content") then Some (dict_get d "content")
    else if decide (k ∈ canonical_keys) then d !! k
    else None.
Proof.
  unfold serialize_message.
  rewrite !lookup_copy_key, lookup_base.
  destruct (decide (k ∈ canonical_keys)) as [Hk|Hk];
    rewrite canonical_keys_spec in Hk.
  - destruct Hk as [->|[->|[->|[->| ->]]]]; simpl;
      try reflexivity; destruct (d !! _); reflexivity.
  - repeat case_decide; subst; try reflexivity; exfalso; apply Hk; auto 10.
Qed.

(** What the response-object branch stores under each key. *)
Lemma lookup_serialize_obj (m : ChatCompletionMessage) (k : string) :
  serialize_message (Obj m) !! k =
    if decide (k = "role") then Some (dict_get (model_dump m) "role")
    else if decide (k = "content") then Some (dict_get (model_dump m) "content")
    else if decide (k = "tool_calls") then model_dump m !! "tool_calls"
    else None.
Proof.
  unfold serialize_message.
  rewrite lookup_copy_key, lookup_base.
  destruct (decide (k = "tool_calls")) as [->|Hk].
  - simpl. destruct (model_dump m !! _); reflexivity.
  - repeat case_decide; try reflexivity; congruence.
Qed.

Lemma serialize_message_keys (message : Message) (k : string) :
  is_Some (serialize_message message !! k) → k ∈ canonical_keys.
Proof.
  rewrite canonical_keys_spec.
  destruct message as [m|d].
  - rewrite lookup_serialize_obj. repeat case_decide; auto.
    intros [? ?]; discriminate.
  - rewrite lookup_serialize_dict. repeat case_decide; auto.
    + rewrite <- canonical_keys_spec. auto.
    + intros [? ?]; discriminate.
Qed.

(** C1: serialising the record that [serialize_message] produced yields the
    same record again, whether the message was a response object or a plain
    dictionary. *)
Theorem serialize_message_idempotent (message : Message) :
  serialize_message (Dict (serialize_message message)) =
    serialize_message message.
Proof.
  apply map_eq; intros k.
  rewrite lookup_serialize_dict.
  destruct (decide (k = "role")) as [->|Hrole].
  { unfold dict_get. destruct message;
      [rewrite lookup_serialize_obj | rewrite lookup_serialize_dict];
      reflexivity. }
  destruct (decide (k = "content")) as [->|Hcontent].
  { unfold dict_get. destruct message;
      [rewrite lookup_serialize_obj | rewrite lookup_serialize_dict];
      reflexivity. }
  destruct (decide (k ∈ canonical_keys)) as [Hk|Hk]; [reflexivity|].
  destruct (serialize_message message !! k) eqn:E; [|reflexivity].
  exfalso. apply Hk. apply (serialize_message_keys message). rewrite E. eauto.
Qed.

(** C2, counterexample: a response object whose dump carries a [name] is
    serialised to a record without it. *)
Lemma serialize_message_drops_name_of_response :
  fields (Obj named_response) !! "name" = Some (VStr "helper") ∧
  serialize_message (Obj named_response) !! "name" = None.
Proof. split; reflexivity. Qed.

(** C2, as the code has it: the record always holds [role] and [content]
    ([None] when the input lacks them) and holds [tool_calls] exactly when the
    input does; [tool_call_id] and [name] are carried over from a plain
    dictionary when present there, and are never taken from a response
    object; no other key is kept. *)
Theorem serialize_message_projection (message : Message) :
  serialize_message message !! "role" = Some (dict_get (fields message) "role") ∧
  serialize_message message !! "content" =
    Some (dict_get (fields message) "content") ∧
  serialize_message message !! "tool_calls" = fields message !! "tool_calls" ∧
  match message with
  | Dict d =>
      serialize_message message !! "tool_call_id" = d !! "tool_call_id" ∧
      serialize_message message !! "name" = d !! "name"
  | Obj _ =>
      serialize_message message !! "tool_call_id" = None ∧
      serialize_message message !! "name" = None
  end ∧
  (∀ k, k ∉ canonical_keys → serialize_message message !! k = None).
Proof.
  destruct message as [m|d]; simpl fields;
    rewrite ?lookup_serialize_obj, ?lookup_serialize_dict;
    repeat split; try reflexivity.
  - intros k Hk. destruct (serialize_message (Obj m) !! k) eqn:E; [|reflexivity].
    exfalso. apply Hk, (serialize_message_keys (Obj m)). rewrite E. eauto.
  - intros k Hk. destruct (serialize_message (Dict d) !! k) eqn:E; [|reflexivity].
    exfalso. apply Hk, (serialize_message_keys (Dict d)). rewrite E. eauto.
Qed.

(** C3: the record [serialize_message] returns has no key outside [role],
    [content], [tool_calls], [tool_call_id] and [name]. *)
Theorem serialize_message_canonical_keys (message : Message) :
  dom (serialize_message message) ⊆ canonical_keys.
Proof.
  intros k Hk. apply elem_of_dom in Hk.
  by apply (serialize_message_keys message).
Qed.

(** * The effects of the driver, the dispatcher and the evaluator *)

Section ScriptFacts.

Variable create : Groq → nat → Request → outcome (list ChatCompletionMessage).
Variable now : nat → datetime.
Variable registry : gmap string Tool.

Lemma run_conversation_result client history model tools tool_choice s :
  fst (run_conversation create client (Dict <$> history) model tools
         tool_choice s) =
    match first_choice (create client (length (requests s))
            (completion_request history model tools tool_choice)) with
    | Returned message => Some message
    | Raised _ => None
    end.
Proof.
  unfold run_conversation, bind, send, completion_request. simpl.
  destruct (first_choice _); reflexivity.
Qed.

Lemma run_conversation_messages client history model tools tool_choice s :
  messages (snd (run_conversation create client history model tools
                   tool_choice s)) = messages s.
Proof.
  unfold run_conversation, bind, send. simpl.
  destruct (first_choice _); reflexivity.
Qed.

Lemma run_conversation_requests client history model tools tool_choice s :
  requests (snd (run_conversation create client (Dict <$> history) model
                   tools tool_choice s)) =
    requests s ++ [completion_request history model tools tool_choice].
Proof.
  unfold run_conversation, bind, send. simpl.
  destruct (first_choice _); reflexivity.
Qed.

Lemma dispatch_requests tool_call s :
  requests (snd (dispatch now registry tool_call s)) = requests s.
Proof.
  unfold dispatch, bind, run_tool. destruct (registry !! _) as [tool|];
    [destruct (tool _)|]; reflexivity.
Qed.

Lemma dispatch_messages tool_call s :
  ∃ added, messages (snd (dispatch now registry tool_call s)) =
             messages s ++ added ∧ Forall is_tool_message added.
Proof.
  unfold dispatch, bind, run_tool. destruct (registry !! _) as [tool|].
  - destruct (tool _); simpl; eexists [_]; split; try reflexivity;
      repeat constructor.
  - exists []. simpl. rewrite app_nil_r. split; [reflexivity|constructor].
Qed.

Lemma dispatch_all_requests calls s :
  requests (snd (dispatch_all now registry calls s)) = requests s.
Proof.
  revert s. induction calls as [|tool_call calls IH]; intros s; [reflexivity|].
  simpl. unfold bind.
  destruct (dispatch now registry tool_call s) as [[] s1] eqn:E.
  rewrite IH. change s1 with (snd (tt, s1)). rewrite <- E.
  apply dispatch_requests.
Qed.

Lemma dispatch_all_messages calls s :
  ∃ added, messages (snd (dispatch_all now registry calls s)) =
             messages s ++ added ∧ Forall is_tool_message added.
Proof.
  revert s. induction calls as [|tool_call calls IH]; intros s.
  - exists []. simpl. rewrite app_nil_r. split; [reflexivity|constructor].
  - simpl. unfold bind.
    destruct (dispatch_messages tool_call s) as (a1 & E1 & F1).
    destruct (dispatch now registry tool_call s) as [[] s1].
    destruct (IH s1) as (a2 & E2 & F2).
    exists (a1 ++ a2). simpl in E1. rewrite E2, E1, app_assoc.
    split; [reflexivity|]. by apply Forall_app.
Qed.

(** When the name is not registered the call leaves no trace at all. *)
Lemma dispatch_unknown tool_call s :
  registry !! fn_name (tc_function tool_call) = None →
  dispatch now registry tool_call s = (tt, s).
Proof. intros H. unfold dispatch. rewrite H. reflexivity. Qed.

Lemma dispatch_all_skips before tool_call after s :
  registry !! fn_name (tc_function tool_call) = None →
  dispatch_all now registry (before ++ tool_call :: after) s =
    dispatch_all now registry (before ++ after) s.
Proof.
  intros H. revert s. induction before as [|c before IH]; intros s; simpl.
  - unfold bind. rewrite dispatch_unknown by assumption. reflexivity.
  - unfold bind. destruct (dispatch now registry c s) as [[] s1]. apply IH.
Qed.

(** A registered tool whose body raises leaves an error message. *)
Lemma dispatch_raised tool_call tool e s :
  registry !! fn_name (tc_function tool_call) = Some tool →
  tool (now (tool_runs s)) = Raised e →
  messages (snd (dispatch now registry tool_call s)) =
    messages s ++ [tool_message (tc_id tool_call)
                     (fn_name (tc_function tool_call)) ("Error: " +:+ e)].
Proof.
  intros H E. unfold dispatch, bind, run_tool. rewrite H. simpl.
  rewrite E. reflexivity.
Qed.

Lemma dispatch_all_app before after s :
  dispatch_all now registry (before ++ after) s =
    dispatch_all now registry after
      (snd (dispatch_all now registry before s)).
Proof.
  revert s. induction before as [|c before IH]; intros s; [reflexivity|].
  simpl. unfold bind. destruct (dispatch now registry c s) as [[] s1].
  apply IH.
Qed.

Lemma dispatch_tool_runs tool_call s :
  tool_runs (snd (dispatch now registry tool_call s)) =
    match registry !! fn_name (tc_function tool_call) with
    | Some _ => S (tool_runs s)
    | None => tool_runs s
    end.
Proof.
  unfold dispatch, bind, run_tool.
  destruct (registry !! _) as [tool|]; [|reflexivity].
  simpl. destruct (tool (now (tool_runs s))); reflexivity.
Qed.

Lemma dispatch_all_tool_runs calls s :
  tool_runs (snd (dispatch_all now registry calls s)) =
    tool_runs s + registered_calls registry calls.
Proof.
  revert s. induction calls as [|c calls IH]; intros s; simpl; [lia|].
  unfold bind. pose proof (dispatch_tool_runs c s) as H.
  destruct (dispatch now registry c s) as [[] s1]. simpl in H.
  rewrite IH, H. destruct (registry !! _); lia.
Qed.

Lemma run_conversation_tool_runs client history model tools tool_choice s :
  tool_runs (snd (run_conversation create client history model tools
                    tool_choice s)) = tool_runs s.
Proof.
  unfold run_conversation, bind, send. simpl.
  destruct (first_choice _); reflexivity.
Qed.

(** The error message of a raising tool is in the store once the loop over
    the calls is done. *)
Lemma dispatch_all_raised before tool_call after tool e s :
  registry !! fn_name (tc_function tool_call) = Some tool →
  tool (now (tool_runs s + registered_calls registry before)) = Raised e →
  tool_message (tc_id tool_call) (fn_name (tc_function tool_call))
    ("Error: " +:+ e)
    ∈ messages (snd (dispatch_all now registry
                       (before ++ tool_call :: after) s)).
Proof.
  intros H E. rewrite dispatch_all_app. simpl. unfold bind.
  rewrite <- dispatch_all_tool_runs in E.
  pose proof (dispatch_raised tool_call tool e _ H E) as Hm.
  destruct (dispatch now registry tool_call _) as [[] s1].
  destruct (dispatch_all_messages after s1) as (added & -> & _).
  simpl in Hm. rewrite Hm, !elem_of_app, list_elem_of_singleton. auto.
Qed.

Lemma take_reply_session message s :
  snd (take_reply message s) = s ∨
  ∃ text, messages (snd (take_reply message s)) = messages s ∧
          requests (snd (take_reply message s)) = requests s ∧
          screen (snd (take_reply message s)) = screen s ++ [st_markdown text].
Proof.
  unfold take_reply. destruct message as [m|]; [|by left].
  destruct (content m) as [text|]; [|by left].
  destruct (nonempty text); [|by left].
  right. exists text. auto.
Qed.

Lemma take_reply_messages message s :
  messages (snd (take_reply message s)) = messages s.
Proof. destruct (take_reply_session message s) as [->|(? & ? & ?)]; auto. Qed.

Lemma take_reply_requests message s :
  requests (snd (take_reply message s)) = requests s.
Proof.
  destruct (take_reply_session message s) as [->|(? & ? & ? & ?)]; auto.
Qed.

(** The reply is either missing or a non-empty assistant message. *)
Lemma take_reply_result message s :
  fst (take_reply message s) = (EmptyString, None) ∨
  ∃ m text, message = Some m ∧ content m = Some text ∧ nonempty text = true ∧
    fst (take_reply message s) = (text, Some (plain_message "assistant" text)).
Proof.
  unfold take_reply. destruct message as [m|]; [|by left].
  destruct (content m) as [text|] eqn:C; [|by left].
  destruct (nonempty text) eqn:N; [|by left].
  right. exists m, text. auto.
Qed.

Lemma evaluate_response_result client user_query assistant_response model s :
  fst (evaluate_response create client user_query assistant_response model s) =
    match first_choice (create client (length (requests s))
            (evaluation_request user_query assistant_response model)) with
    | Returned message => from_option VStr VNone (content message)
    | Raised e => VStr ("Evaluation failed: " +:+ e)
    end.
Proof.
  unfold evaluate_response, bind, send, evaluation_request. simpl.
  destruct (first_choice _); reflexivity.
Qed.

Lemma evaluate_response_messages client user_query assistant_response model s :
  messages (snd (evaluate_response create client user_query
                   assistant_response model s)) = messages s.
Proof.
  unfold evaluate_response, bind, send. simpl.
  destruct (first_choice _); reflexivity.
Qed.

Lemma evaluate_response_requests client user_query assistant_response model s :
  requests (snd (evaluate_response create client user_query
                   assistant_response model s)) =
    requests s ++ [evaluation_request user_query assistant_response model].
Proof.
  unfold evaluate_response, bind, send. simpl.
  destruct (first_choice _); reflexivity.
Qed.

End ScriptFacts.

(** * One user turn *)

Section TurnFacts.

Variable create : Groq → nat → Request → outcome (list ChatCompletionMessage).
Variable now : nat → datetime.
Variable registry : gmap string Tool.

Lemma with_user_message_messages prompt s :
  messages (with_user_message prompt s) =
    messages s ++ [plain_message "user" prompt].
Proof. reflexivity. Qed.

Lemma with_user_message_requests prompt s :
  requests (with_user_message prompt s) = requests s.
Proof. reflexivity. Qed.

(** The three ways the block under the spinner can go. *)
Lemma respond_cases client model s :
  respond create now registry client model s =
    let first := run_conversation create client (Dict <$> messages s) model
                   (Some tools_schema) "auto" s in
    match fst first with
    | Some response_message =>
        match tool_calls response_message with
        | Some (call :: calls) =>
            let s3 := snd (dispatch_all now registry (call :: calls)
                        (snd (append (serialize_message (Obj response_message))
                                (snd first)))) in
            let final := run_conversation create client
                           (Dict <$> messages s3) model None "none" s3 in
            take_reply (fst final) (snd final)
        | _ => take_reply (Some response_message) (snd first)
        end
    | None => ((EmptyString, None), snd first)
    end.
Proof.
  unfold respond, bind, get_messages. cbv zeta.
  destruct (run_conversation _ _ _ _ _ _ s) as [[rm|] s1]; [|reflexivity].
  cbv [fst snd].
  destruct (tool_calls rm) as [[|call calls]|]; try reflexivity.
  cbv [append]. cbv beta iota.
  match goal with |- context [dispatch_all now registry ?c ?s2] =>
    destruct (dispatch_all now registry c s2) as [[] s3] end.
  match goal with |- context [run_conversation ?a ?b ?c ?d ?e ?f s3] =>
    destruct (run_conversation a b c d e f s3) end.
  reflexivity.
Qed.

(** The turn, once the prompt and the client are there. *)
Lemma handle_user_input_cases client model prompt s :
  nonempty prompt = true →
  handle_user_input create now registry (Some client) model (Some prompt) s =
    let reply := respond create now registry client model
                   (with_user_message prompt s) in
    match fst reply with
    | (text, Some assistant_message) =>
        if nonempty text then
          (evaluation <- evaluate_response create client prompt text
                           EVALUATION_MODEL ;;
           show (st_info evaluation) ;;
           append (<["evaluation" := evaluation]> assistant_message))
            (snd reply)
        else (tt, snd reply)
    | (_, None) => (tt, snd reply)
    end.
Proof.
  intros Hp. unfold handle_user_input. rewrite Hp.
  cbv [with_user_message bind append show fst snd]. cbv beta iota zeta.
  match goal with |- context [respond ?a ?b ?c ?d ?e ?s1] =>
    destruct (respond a b c d e s1) as [[text [msg|]] s2] end;
    [destruct (nonempty text)|]; reflexivity.
Qed.

Lemma respond_result client model s :
  fst (respond create now registry client model s) = (EmptyString, None) ∨
  ∃ text, nonempty text = true ∧
    fst (respond create now registry client model s) =
      (text, Some (plain_message "assistant" text)).
Proof.
  rewrite respond_cases. cbv zeta.
  destruct (fst (run_conversation _ _ _ _ _ _ s)) as [rm|]; [|by left].
  destruct (tool_calls rm) as [[|call calls]|].
  all: match goal with |- context [take_reply ?m ?s] =>
       destruct (take_reply_result m s) as [E|(? & text & _ & _ & N & E)] end.
  all: rewrite E; eauto.
Qed.

(** The store only grows during a turn, past what [respond] left. *)
Lemma handle_user_input_extends client model prompt s :
  nonempty prompt = true →
  ∃ more sent,
    messages (snd (handle_user_input create now registry (Some client) model
                     (Some prompt) s)) =
      messages (snd (respond create now registry client model
                       (with_user_message prompt s))) ++ more ∧
    requests (snd (handle_user_input create now registry (Some client) model
                     (Some prompt) s)) =
      requests (snd (respond create now registry client model
                       (with_user_message prompt s))) ++ sent.
Proof.
  intros Hp. rewrite handle_user_input_cases by assumption. cbv zeta.
  destruct (respond _ _ _ _ _ _) as [[text [msg|]] s2]; simpl fst; simpl snd.
  - destruct (nonempty text).
    + unfold bind.
      pose proof (evaluate_response_messages create client prompt text
                    EVALUATION_MODEL s2) as Hm.
      pose proof (evaluate_response_requests create client prompt text
                    EVALUATION_MODEL s2) as Hr.
      destruct (evaluate_response _ _ _ _ _ s2) as [evaluation s3].
      simpl in *. rewrite Hm, Hr. eauto.
    + exists [], []. by rewrite !app_nil_r.
  - exists [], []. by rewrite !app_nil_r.
Qed.

(** After a first completion that asks for tools, the second one is
    requested over the store the dispatcher left. *)
Lemma respond_with_tools client model s response_message call calls :
  fst (run_conversation create client (Dict <$> messages s) model
         (Some tools_schema) "auto" s) = Some response_message →
  tool_calls response_message = Some (call :: calls) →
  ∃ s3,
    s3 = snd (dispatch_all now registry (call :: calls)
           (snd (append (serialize_message (Obj response_message))
                   (snd (run_conversation create client (Dict <$> messages s)
                           model (Some tools_schema) "auto" s))))) ∧
    messages (snd (respond create now registry client model s)) =
      messages s3 ∧
    requests (snd (respond create now registry client model s)) =
      requests s ++
        [completion_request (messages s) model (Some tools_schema) "auto";
         completion_request (messages s3) model None "none"] ∧
    ∃ results,
      messages s3 =
        messages s ++ serialize_message (Obj response_message) :: results ∧
      Forall is_tool_message results.
Proof.
  intros Hfirst Hcalls. eexists. split; [reflexivity|].
  rewrite respond_cases. cbv zeta. rewrite Hfirst, Hcalls.
  rewrite take_reply_messages, take_reply_requests.
  rewrite run_conversation_messages, run_conversation_requests.
  rewrite dispatch_all_requests. simpl requests at 1.
  rewrite run_conversation_requests.
  split; [reflexivity|]. split; [by rewrite <- app_assoc|].
  match goal with |- context [dispatch_all now registry ?c ?s0] =>
    destruct (dispatch_all_messages now registry c s0) as (results & E & F)
  end.
  exists results. rewrite E. simpl messages at 1.
  rewrite run_conversation_messages, <- app_assoc. auto.
Qed.

End TurnFacts.

(** * The properties of a turn *)

Section Turn.

Variable create : Groq → nat → Request → outcome (list ChatCompletionMessage).
Variable now : nat → datetime.
Variable registry : gmap string Tool.

Lemma lookup_second {A : Type} (l more : list A) (a b : A) :
  ((l ++ [a; b]) ++ more) !! S (length l) = Some b.
Proof.
  apply lookup_app_l_Some.
  rewrite lookup_app_r by lia.
  replace (S (length l) - length l) with 1 by lia. reflexivity.
Qed.

(** C4: when the first completion call fails, the turn leaves in the store
    exactly the user message it appended: the length grows by one, and the
    failed request is the only one sent. *)
Theorem failed_first_completion_keeps_user_message_only
    client model prompt s :
  nonempty prompt = true →
  fst (run_conversation create client
         (Dict <$> messages (with_user_message prompt s)) model
         (Some tools_schema) "auto" (with_user_message prompt s)) = None →
  messages (snd (handle_user_input create now registry (Some client) model
                   (Some prompt) s)) =
    messages s ++ [plain_message "user" prompt] ∧
  length (messages (snd (handle_user_input create now registry (Some client)
                           model (Some prompt) s))) =
    length (messages s) + 1 ∧
  requests (snd (handle_user_input create now registry (Some client) model
                   (Some prompt) s)) =
    requests s ++ [completion_request (messages s ++ [plain_message "user" prompt])
                     model (Some tools_schema) "auto"].
Proof.
  intros Hp Hfirst.
  rewrite handle_user_input_cases by assumption. cbv zeta.
  rewrite respond_cases. cbv zeta. rewrite Hfirst. simpl fst; simpl snd.
  rewrite run_conversation_messages, run_conversation_requests.
  rewrite with_user_message_messages, with_user_message_requests.
  rewrite length_app. auto.
Qed.

(** C5: when a call in the first completion names a registered tool whose
    body raises as it is run, the dispatcher stores a tool message with the
    call's id and name and the non-empty text ["Error: ..."], and the turn
    goes on to request the second completion over a history that holds
    it. *)
Theorem raising_tool_yields_error_message_and_second_completion
    client model prompt s response_message before tool_call after tool e :
  nonempty prompt = true →
  fst (run_conversation create client
         (Dict <$> messages (with_user_message prompt s)) model
         (Some tools_schema) "auto" (with_user_message prompt s)) =
    Some response_message →
  tool_calls response_message = Some (before ++ tool_call :: after) →
  registry !! fn_name (tc_function tool_call) = Some tool →
  tool (now (tool_runs s + registered_calls registry before)) = Raised e →
  ∃ error_message second,
    error_message = tool_message (tc_id tool_call)
                      (fn_name (tc_function tool_call)) ("Error: " +:+ e) ∧
    error_message ∈
      messages (snd (handle_user_input create now registry (Some client)
                       model (Some prompt) s)) ∧
    error_message !! "role" = Some (VStr "tool") ∧
    error_message !! "tool_call_id" = Some (VStr (tc_id tool_call)) ∧
    error_message !! "name" =
      Some (VStr (fn_name (tc_function tool_call))) ∧
    error_message !! "content" = Some (VStr ("Error: " +:+ e)) ∧
    nonempty ("Error: " +:+ e) = true ∧
    requests (snd (handle_user_input create now registry (Some client) model
                     (Some prompt) s)) !! S (length (requests s)) =
      Some second ∧
    req_tool_choice second = Some "none" ∧
    serialize_message (Dict error_message) ∈ req_messages second.
Proof.
  intros Hp Hfirst Hcalls Htool Hraise.
  assert (∃ call calls, before ++ tool_call :: after = call :: calls)
    as (call & calls & Hcons).
  { destruct before; simpl; eauto. }
  rewrite Hcons in Hcalls.
  destruct (respond_with_tools create now registry client model _ _ _ _
              Hfirst Hcalls) as (s3 & Es3 & Hm & Hr & _).
  destruct (handle_user_input_extends create now registry client model
              prompt s Hp) as (more & sent & Em & Er).
  assert (tool_message (tc_id tool_call) (fn_name (tc_function tool_call))
            ("Error: " +:+ e) ∈ messages s3) as Hs3.
  { rewrite Es3, <- Hcons.
    apply (dispatch_all_raised now registry _ _ _ tool); [assumption|].
    simpl tool_runs. by rewrite run_conversation_tool_runs. }
  eexists _, (completion_request (messages s3) model None "none").
  split; [reflexivity|].
  split. { rewrite Em, Hm. apply elem_of_app. by left. }
  do 5 (split; [reflexivity|]).
  split. { rewrite Er, Hr, with_user_message_requests. apply lookup_second. }
  split; [reflexivity|].
  unfold completion_request. cbn [req_messages]. apply elem_of_cons. right.
  apply (list_elem_of_fmap_2 serialize_message), (list_elem_of_fmap_2 Dict), Hs3.
Qed.

(** C6: when a turn has produced a non-empty reply and the evaluation
    request fails, [evaluate_response] returns the text
    ["Evaluation failed: ..."], and the assistant message is appended all
    the same, its content the reply and its evaluation that text. *)
Theorem failed_evaluation_keeps_reply
    client model prompt s text assistant_message s2 e :
  nonempty prompt = true →
  respond create now registry client model (with_user_message prompt s) =
    ((text, Some assistant_message), s2) →
  first_choice (create client (length (requests s2))
                  (evaluation_request prompt text EVALUATION_MODEL)) =
    Raised e →
  fst (evaluate_response create client prompt text EVALUATION_MODEL s2) =
    VStr ("Evaluation failed: " +:+ e) ∧
  nonempty text = true ∧
  messages (snd (handle_user_input create now registry (Some client) model
                   (Some prompt) s)) =
    messages s2 ++
      [<["evaluation" := VStr ("Evaluation failed: " +:+ e)]>
         (plain_message "assistant" text)] ∧
  (<["evaluation" := VStr ("Evaluation failed: " +:+ e)]>
     (plain_message "assistant" text)) !! "content" = Some (VStr text).
Proof.
  intros Hp Hreply Heval.
  pose proof (evaluate_response_result create client prompt text
                EVALUATION_MODEL s2) as Hres.
  rewrite Heval in Hres.
  assert (nonempty text = true ∧
          assistant_message = plain_message "assistant" text) as [N ->].
  { destruct (respond_result create now registry client model
                (with_user_message prompt s)) as [E|(t & N & E)];
      rewrite Hreply in E; simpl in E; [discriminate|].
    injection E as -> ->. auto. }
  split; [assumption|]. split; [assumption|]. split; [|reflexivity].
  rewrite handle_user_input_cases by assumption. cbv zeta.
  rewrite Hreply. simpl fst; simpl snd. rewrite N. unfold bind.
  pose proof (evaluate_response_messages create client prompt text
                EVALUATION_MODEL s2) as Hm.
  destruct (evaluate_response _ _ _ _ _ s2) as [evaluation s3].
  simpl in Hres, Hm. subst evaluation. simpl. by rewrite Hm.
Qed.

(** C8, as the code has it: a turn that ends without a reply has stored no
    final assistant reply.  When the first completion failed, or asked for
    no tool, only the user message was appended; when it asked for tools
    and the second completion failed or came back empty, the store keeps
    the user message, the assistant message carrying the tool calls and the
    tool messages, and nothing after them. *)
Theorem aborted_turn_store client model prompt s :
  nonempty prompt = true →
  fst (respond create now registry client model (with_user_message prompt s)) =
    (EmptyString, None) →
  match fst (run_conversation create client
               (Dict <$> messages (with_user_message prompt s)) model
               (Some tools_schema) "auto" (with_user_message prompt s)) with
  | Some response_message =>
      match tool_calls response_message with
      | Some (_ :: _) =>
          ∃ results,
            messages (snd (handle_user_input create now registry
                             (Some client) model (Some prompt) s)) =
              messages s ++
                plain_message "user" prompt ::
                serialize_message (Obj response_message) :: results ∧
            Forall is_tool_message results
      | _ =>
          messages (snd (handle_user_input create now registry (Some client)
                           model (Some prompt) s)) =
            messages s ++ [plain_message "user" prompt]
      end
  | None =>
      messages (snd (handle_user_input create now registry (Some client)
                       model (Some prompt) s)) =
        messages s ++ [plain_message "user" prompt]
  end.
Proof.
  intros Hp Hnone.
  assert (messages (snd (handle_user_input create now registry (Some client)
                           model (Some prompt) s)) =
          messages (snd (respond create now registry client model
                           (with_user_message prompt s)))) as ->.
  { rewrite handle_user_input_cases by assumption. cbv zeta.
    rewrite Hnone. reflexivity. }
  destruct (fst (run_conversation _ _ _ _ _ _ _)) as [rm|] eqn:Hfirst.
  - destruct (tool_calls rm) as [[|call calls]|] eqn:Hcalls.
    + rewrite respond_cases. cbv zeta. rewrite Hfirst, Hcalls.
      by rewrite take_reply_messages, run_conversation_messages.
    + destruct (respond_with_tools create now registry client model _ _ _ _
                  Hfirst Hcalls) as (s3 & _ & Hm & _ & results & Hres & F).
      exists results. rewrite Hm, Hres, with_user_message_messages.
      by rewrite <- app_assoc.
    + rewrite respond_cases. cbv zeta. rewrite Hfirst, Hcalls.
      by rewrite take_reply_messages, run_conversation_messages.
  - rewrite respond_cases. cbv zeta. rewrite Hfirst. simpl snd.
    by rewrite run_conversation_messages.
Qed.

(** C10: a call that names a function missing from the registry is skipped
    without a trace: the dispatcher acts as if the call were not in the
    list, so no tool message is stored for it.  The assistant message with
    the tool calls is in the store by then, and the second completion is
    requested over the store the dispatcher left. *)
Theorem unregistered_tool_is_skipped
    client model prompt s response_message before tool_call after :
  nonempty prompt = true →
  fst (run_conversation create client
         (Dict <$> messages (with_user_message prompt s)) model
         (Some tools_schema) "auto" (with_user_message prompt s)) =
    Some response_message →
  tool_calls response_message = Some (before ++ tool_call :: after) →
  registry !! fn_name (tc_function tool_call) = None →
  (∀ s0, dispatch now registry tool_call s0 = (tt, s0)) ∧
  ∃ s3 results more,
    s3 = snd (dispatch_all now registry (before ++ after)
           (snd (append (serialize_message (Obj response_message))
                   (snd (run_conversation create client
                           (Dict <$> messages (with_user_message prompt s))
                           model (Some tools_schema) "auto"
                           (with_user_message prompt s)))))) ∧
    messages s3 =
      messages s ++
        plain_message "user" prompt ::
        serialize_message (Obj response_message) :: results ∧
    Forall is_tool_message results ∧
    messages (snd (handle_user_input create now registry (Some client) model
                     (Some prompt) s)) = messages s3 ++ more ∧
    requests (snd (handle_user_input create now registry (Some client) model
                     (Some prompt) s)) !! S (length (requests s)) =
      Some (completion_request (messages s3) model None "none").
Proof.
  intros Hp Hfirst Hcalls Hnone.
  split. { intros s0. by apply dispatch_unknown. }
  assert (∃ call calls, before ++ tool_call :: after = call :: calls)
    as (call & calls & Hcons).
  { destruct before; simpl; eauto. }
  rewrite Hcons in Hcalls.
  destruct (respond_with_tools create now registry client model _ _ _ _
              Hfirst Hcalls) as (s3 & Es3 & Hm & Hr & results & Hres & F).
  destruct (handle_user_input_extends create now registry client model
              prompt s Hp) as (more & sent & Em & Er).
  rewrite <- Hcons, dispatch_all_skips in Es3 by assumption.
  exists s3, results, more.
  split; [assumption|].
  split. { rewrite Hres, with_user_message_messages. by rewrite <- app_assoc. }
  split; [assumption|].
  split. { by rewrite Em, Hm. }
  rewrite Er, Hr, with_user_message_requests. apply lookup_second.
Qed.

End Turn.

(** C4, at a concrete input: the API is down when the first user writes. *)
Lemma failed_first_completion_witness :
  messages (snd (handle_user_input api_down stopped_clock available_tools
                   (Some demo_client) DEFAULT_MODEL (Some "hello") fresh)) =
    messages fresh ++ [plain_message "user" "hello"] ∧
  length (messages (snd (handle_user_input api_down stopped_clock
                           available_tools (Some demo_client) DEFAULT_MODEL
                           (Some "hello") fresh))) =
    length (messages fresh) + 1 ∧
  requests (snd (handle_user_input api_down stopped_clock available_tools
                   (Some demo_client) DEFAULT_MODEL (Some "hello") fresh)) =
    requests fresh ++
      [completion_request (messages fresh ++ [plain_message "user" "hello"])
         DEFAULT_MODEL (Some tools_schema) "auto"].
Proof.
  apply (failed_first_completion_keeps_user_message_only api_down
           stopped_clock available_tools demo_client DEFAULT_MODEL "hello"
           fresh); reflexivity.
Defined.

(** C5, at a concrete input: the model asks for the clock, the clock tool
    raises, and the API fails for every later request. *)
Lemma raising_tool_witness :
  ∃ error_message second,
    error_message = tool_message (tc_id clock_call)
                      (fn_name (tc_function clock_call))
                      ("Error: " +:+ "clock unavailable") ∧
    error_message ∈
      messages (snd (handle_user_input (api_fails_after_tools [clock_call])
                       stopped_clock broken_tools (Some demo_client)
                       DEFAULT_MODEL (Some "What time is it?") fresh)) ∧
    error_message !! "role" = Some (VStr "tool") ∧
    error_message !! "tool_call_id" = Some (VStr (tc_id clock_call)) ∧
    error_message !! "name" = Some (VStr (fn_name (tc_function clock_call))) ∧
    error_message !! "content" =
      Some (VStr ("Error: " +:+ "clock unavailable")) ∧
    nonempty ("Error: " +:+ "clock unavailable") = true ∧
    requests (snd (handle_user_input (api_fails_after_tools [clock_call])
                     stopped_clock broken_tools (Some demo_client)
                     DEFAULT_MODEL (Some "What time is it?") fresh))
      !! S (length (requests fresh)) = Some second ∧
    req_tool_choice second = Some "none" ∧
    serialize_message (Dict error_message) ∈ req_messages second.
Proof.
  apply (raising_tool_yields_error_message_and_second_completion
           (api_fails_after_tools [clock_call]) stopped_clock broken_tools
           demo_client DEFAULT_MODEL "What time is it?" fresh
           (tool_request [clock_call]) [] clock_call []
           (λ _, Raised "clock unavailable") "clock unavailable").
  - reflexivity.
  - reflexivity.
  - reflexivity.
  - reflexivity.
  - reflexivity.
Defined.

(** C6, at a concrete input: the model answers at once and the evaluation
    request fails. *)
Lemma failed_evaluation_witness :
  fst (evaluate_response api_fails_on_evaluation demo_client
         "How do I repeat a step?" "Use a for loop." EVALUATION_MODEL
         (snd (respond api_fails_on_evaluation stopped_clock available_tools
                 demo_client DEFAULT_MODEL
                 (with_user_message "How do I repeat a step?" fresh)))) =
    VStr ("Evaluation failed: " +:+ "rate limit exceeded") ∧
  nonempty "Use a for loop." = true ∧
  messages (snd (handle_user_input api_fails_on_evaluation stopped_clock
                   available_tools (Some demo_client) DEFAULT_MODEL
                   (Some "How do I repeat a step?") fresh)) =
    messages (snd (respond api_fails_on_evaluation stopped_clock
                     available_tools demo_client DEFAULT_MODEL
                     (with_user_message "How do I repeat a step?" fresh))) ++
      [<["evaluation" := VStr ("Evaluation failed: " +:+ "rate limit exceeded")]>
         (plain_message "assistant" "Use a for loop.")] ∧
  (<["evaluation" := VStr ("Evaluation failed: " +:+ "rate limit exceeded")]>
     (plain_message "assistant" "Use a for loop.")) !! "content" =
    Some (VStr "Use a for loop.").
Proof.
  apply (failed_evaluation_keeps_reply api_fails_on_evaluation stopped_clock
           available_tools demo_client DEFAULT_MODEL "How do I repeat a step?"
           fresh "Use a for loop."
           (plain_message "assistant" "Use a for loop.")).
  - reflexivity.
  - reflexivity.
  - reflexivity.
Defined.

(** C8, counterexample: the first completion asks for the clock and the
    second one fails.  The turn ends without a reply, and the store keeps the
    assistant message that carries the tool calls, with the tool message
    after it. *)
Lemma aborted_turn_keeps_tool_calls_message :
  fst (respond (api_fails_after_tools [clock_call]) stopped_clock
         available_tools demo_client DEFAULT_MODEL
         (with_user_message "What time is it?" fresh)) = (EmptyString, None) ∧
  messages (snd (handle_user_input (api_fails_after_tools [clock_call])
                   stopped_clock available_tools (Some demo_client)
                   DEFAULT_MODEL (Some "What time is it?") fresh)) =
    [ plain_message "user" "What time is it?";
      serialize_message (Obj (tool_request [clock_call]));
      tool_message "call_1" "get_current_datetime"
        (get_current_datetime leap_day) ] ∧
  serialize_message (Obj (tool_request [clock_call])) !! "role" =
    Some (VStr "assistant") ∧
  serialize_message (Obj (tool_request [clock_call])) !! "tool_calls" =
    Some (VToolCalls [clock_call]) ∧
  last (screen (snd (handle_user_input (api_fails_after_tools [clock_call])
                       stopped_clock available_tools (Some demo_client)
                       DEFAULT_MODEL (Some "What time is it?") fresh))) =
    Some (st_error "Error during conversation: connection lost").
Proof. repeat split; reflexivity. Qed.

(** C8, at a concrete input: the same turn, in which the second completion
    fails after the clock was asked for. *)
Lemma aborted_turn_store_witness :
  ∃ results,
    messages (snd (handle_user_input (api_fails_after_tools [clock_call])
                     stopped_clock available_tools (Some demo_client)
                     DEFAULT_MODEL (Some "What time is it?") fresh)) =
      messages fresh ++
        plain_message "user" "What time is it?" ::
        serialize_message (Obj (tool_request [clock_call])) :: results ∧
    Forall is_tool_message results.
Proof.
  apply (aborted_turn_store (api_fails_after_tools [clock_call]) stopped_clock
           available_tools demo_client DEFAULT_MODEL "What time is it?" fresh).
  - reflexivity.
  - reflexivity.
Defined.

(** C10, at a concrete input: the model asks for a tool that is not in the
    registry. *)
Lemma unregistered_tool_witness :
  (∀ s0, dispatch stopped_clock available_tools weather_call s0 = (tt, s0)) ∧
  ∃ s3 results more,
    s3 = snd (dispatch_all stopped_clock available_tools ([] ++ [])
           (snd (append (serialize_message (Obj (tool_request [weather_call])))
                   (snd (run_conversation (api_fails_after_tools [weather_call])
                           demo_client
                           (Dict <$> messages
                              (with_user_message "Will it rain?" fresh))
                           DEFAULT_MODEL (Some tools_schema) "auto"
                           (with_user_message "Will it rain?" fresh)))))) ∧
    messages s3 =
      messages fresh ++
        plain_message "user" "Will it rain?" ::
        serialize_message (Obj (tool_request [weather_call])) :: results ∧
    Forall is_tool_message results ∧
    messages (snd (handle_user_input (api_fails_after_tools [weather_call])
                     stopped_clock available_tools (Some demo_client)
                     DEFAULT_MODEL (Some "Will it rain?") fresh)) =
      messages s3 ++ more ∧
    requests (snd (handle_user_input (api_fails_after_tools [weather_call])
                     stopped_clock available_tools (Some demo_client)
                     DEFAULT_MODEL (Some "Will it rain?") fresh))
      !! S (length (requests fresh)) =
      Some (completion_request (messages s3) DEFAULT_MODEL None "none").
Proof.
  apply (unregistered_tool_is_skipped (api_fails_after_tools [weather_call])
           stopped_clock available_tools demo_client DEFAULT_MODEL
           "Will it rain?" fresh (tool_request [weather_call]) [] weather_call
           []).
  - reflexivity.
  - reflexivity.
  - reflexivity.
  - reflexivity.
Defined.

(** * Properties of the clock tool *)


(** Division and remainder by a constant, for [lia]. *)
Local Ltac Zify.zify_post_hook ::= Z.to_euclidean_division_equations.







(** ** Reading the JSON text back *)
















(** * Credentials *)

(** C9, counterexample: with [GROQ_API_KEY] set to the empty string no client
    is built from it, and a key held by the session is used in its place. *)
Lemma empty_environment_key_is_passed_over :
  fst (get_groq_client (Some EmptyString) fresh) = None ∧
  fst (get_groq_client (Some EmptyString) keyed_session) =
    Some {| api_key := "gsk_session" |}.
Proof. split; reflexivity. Qed.

(** * More on the serializer and the driver *)

(** X1: the record made from a response object is the record made from its
    dump as a plain dictionary, with [tool_call_id] and [name] removed. *)
Theorem serialize_object_as_dictionary (m : ChatCompletionMessage) :
  serialize_message (Obj m) =
    delete "name" (delete "tool_call_id"
      (serialize_message (Dict (model_dump m)))).
Proof.
  apply map_eq; intros k.
  rewrite lookup_serialize_obj, !lookup_delete, lookup_serialize_dict.
  destruct (decide (k = "role")) as [->|?]; [reflexivity|].
  destruct (decide (k = "content")) as [->|?]; [reflexivity|].
  destruct (decide (k = "tool_calls")) as [->|?]; [reflexivity|].
  destruct (decide ("name" = k)) as [<-|?]; [reflexivity|].
  destruct (decide ("tool_call_id" = k)) as [<-|?]; [reflexivity|].
  destruct (decide (k ∈ canonical_keys)) as [Hk|?]; [|reflexivity].
  apply canonical_keys_spec in Hk. intuition congruence.
Qed.

(** X2: a key outside the canonical five never reaches the serialised
    record: storing it in a dictionary does not change what is sent. *)
Theorem serialize_ignores_other_keys
    (d : gmap string value) (k : string) (v : value) :
  k ∉ canonical_keys →
  serialize_message (Dict (<[k := v]> d)) = serialize_message (Dict d).
Proof.
  intros Hk. rewrite canonical_keys_spec in Hk.
  apply map_eq; intros j. rewrite !lookup_serialize_dict. unfold dict_get.
  rewrite !(lookup_insert_ne d k) by (intros ->; apply Hk; auto).
  destruct (decide (j = "role")); [reflexivity|].
  destruct (decide (j = "content")); [reflexivity|].
  destruct (decide (j ∈ canonical_keys)) as [Hj|?]; [|reflexivity].
  apply lookup_insert_ne. intros ->.
  apply Hk, canonical_keys_spec, Hj.
Qed.

(** X2, at a concrete input: the evaluation attached to a stored reply. *)
Lemma serialize_ignores_evaluation_witness :
  serialize_message
    (Dict (<["evaluation" := VStr "Evaluation: fine"]>
             (plain_message "assistant" "Use a for loop."))) =
    serialize_message (Dict (plain_message "assistant" "Use a for loop.")).
Proof.
  apply serialize_ignores_other_keys.
  rewrite canonical_keys_spec. intros [H|[H|[H|[H|H]]]]; discriminate H.
Defined.

(** X3: the dictionaries that are sent exactly as stored are those that hold
    a role and a content and no key outside the canonical five. *)
Theorem serialize_fixed_points (d : gmap string value) :
  serialize_message (Dict d) = d ↔
    is_Some (d !! "role") ∧ is_Some (d !! "content") ∧
    dom d ⊆ canonical_keys.
Proof.
  split.
  - intros E. repeat split.
    + rewrite <- E, lookup_serialize_dict. simpl. eauto.
    + rewrite <- E, lookup_serialize_dict. simpl. eauto.
    + intros k Hk. apply elem_of_dom in Hk. rewrite <- E in Hk.
      by apply (serialize_message_keys (Dict d)).
  - intros ([r Hr] & [c Hc] & Hdom).
    apply map_eq; intros k. rewrite lookup_serialize_dict. unfold dict_get.
    destruct (decide (k = "role")) as [->|?]; [by rewrite Hr|].
    destruct (decide (k = "content")) as [->|?]; [by rewrite Hc|].
    destruct (decide (k ∈ canonical_keys)) as [?|Hk]; [reflexivity|].
    symmetry. apply not_elem_of_dom. intros Hin. apply Hk, Hdom, Hin.
Qed.

(** X4: whatever the API answers, [run_conversation] leaves the store as it
    was and sends exactly one request; its messages are the system prompt
    followed by one record per message of the history, and every one of them
    holds a role, a content and canonical keys only. *)
Theorem run_conversation_request
    (create : Groq → nat → Request → outcome (list ChatCompletionMessage))
    client (history : list Message) model tools tool_choice s :
  ∃ request,
    requests (snd (run_conversation create client history model tools
                     tool_choice s)) = requests s ++ [request] ∧
    messages (snd (run_conversation create client history model tools
                     tool_choice s)) = messages s ∧
    req_messages request = system_prompt :: (serialize_message <$> history) ∧
    length (req_messages request) = S (length history) ∧
    Forall (λ m, is_Some (m !! "role") ∧ is_Some (m !! "content") ∧
                 dom m ⊆ canonical_keys) (req_messages request).
Proof.
  eexists. split; [|split; [|split; [|split]]].
  - unfold run_conversation, bind, send. simpl.
    destruct (first_choice _); reflexivity.
  - apply run_conversation_messages.
  - reflexivity.
  - simpl. by rewrite length_fmap.
  - simpl. constructor.
    + repeat split; [by eexists|by eexists|].
      intros k Hk. apply elem_of_dom in Hk. apply canonical_keys_spec.
      unfold system_prompt in Hk. rewrite !lookup_insert in Hk.
      repeat case_decide; subst; auto.
      rewrite lookup_empty in Hk. by destruct Hk.
    + apply Forall_fmap, Forall_forall. intros m _. simpl.
      repeat split.
      * destruct m; [rewrite lookup_serialize_obj|rewrite lookup_serialize_dict];
          simpl; eauto.
      * destruct m; [rewrite lookup_serialize_obj|rewrite lookup_serialize_dict];
          simpl; eauto.
      * intros k Hk. apply elem_of_dom in Hk.
        by apply (serialize_message_keys m).
Qed.

(** * More on the turn *)

Section TurnMore.

Variable create : Groq → nat → Request → outcome (list ChatCompletionMessage).
Variable now : nat → datetime.
Variable registry : gmap string Tool.

Lemma dispatch_length tool_call s :
  length (messages (snd (dispatch now registry tool_call s))) =
    match registry !! fn_name (tc_function tool_call) with
    | Some _ => S (length (messages s))
    | None => length (messages s)
    end.
Proof.
  unfold dispatch, bind, run_tool.
  destruct (registry !! _) as [tool|]; [|reflexivity].
  simpl. destruct (tool (now (tool_runs s))); simpl;
    rewrite length_app; simpl; lia.
Qed.

Lemma dispatch_all_length calls s :
  length (messages (snd (dispatch_all now registry calls s))) =
    length (messages s) + registered_calls registry calls.
Proof.
  revert s. induction calls as [|c calls IH]; intros s; simpl; [lia|].
  unfold bind. pose proof (dispatch_length c s) as H.
  destruct (dispatch now registry c s) as [[] s1]. simpl in H.
  rewrite IH, H. destruct (registry !! _); lia.
Qed.

(** What a turn that has a reply does after [respond]. *)
Lemma turn_with_reply client model prompt s text assistant_message s2 :
  nonempty prompt = true →
  respond create now registry client model (with_user_message prompt s) =
    ((text, Some assistant_message), s2) →
  nonempty text = true ∧
  messages (snd (handle_user_input create now registry (Some client) model
                   (Some prompt) s)) =
    messages s2 ++
      [<["evaluation" :=
           fst (evaluate_response create client prompt text EVALUATION_MODEL s2)]>
         (plain_message "assistant" text)] ∧
  requests (snd (handle_user_input create now registry (Some client) model
                   (Some prompt) s)) =
    requests s2 ++ [evaluation_request prompt text EVALUATION_MODEL].
Proof.
  intros Hp Hreply.
  assert (nonempty text = true ∧
          assistant_message = plain_message "assistant" text) as [N ->].
  { destruct (respond_result create now registry client model
                (with_user_message prompt s)) as [E|(t & N & E)];
      rewrite Hreply in E; simpl in E; [discriminate|].
    injection E as -> ->. auto. }
  split; [assumption|].
  rewrite handle_user_input_cases by assumption. cbv zeta.
  rewrite Hreply. simpl fst; simpl snd. rewrite N. unfold bind.
  pose proof (evaluate_response_messages create client prompt text
                EVALUATION_MODEL s2) as Hm.
  pose proof (evaluate_response_requests create client prompt text
                EVALUATION_MODEL s2) as Hr.
  destruct (evaluate_response _ _ _ _ _ s2) as [evaluation s3].
  simpl in Hm, Hr. simpl. by rewrite Hm, Hr.
Qed.

(** What a turn without a reply leaves: what [respond] left. *)
Lemma turn_without_reply client model prompt s :
  nonempty prompt = true →
  fst (respond create now registry client model (with_user_message prompt s)) =
    (EmptyString, None) →
  snd (handle_user_input create now registry (Some client) model
         (Some prompt) s) =
    snd (respond create now registry client model (with_user_message prompt s)).
Proof.
  intros Hp Hnone. rewrite handle_user_input_cases by assumption. cbv zeta.
  by rewrite Hnone.
Qed.

(** The requests [respond] sends: the first completion and at most one
    more. *)
Lemma respond_sent client model s :
  ∃ sent,
    requests (snd (respond create now registry client model s)) =
      requests s ++
        completion_request (messages s) model (Some tools_schema) "auto" :: sent ∧
    length sent ≤ 1.
Proof.
  rewrite respond_cases. cbv zeta.
  destruct (fst (run_conversation _ _ _ _ _ _ s)) as [rm|] eqn:Hfirst.
  - destruct (tool_calls rm) as [[|call calls]|] eqn:Hcalls.
    + exists []. rewrite take_reply_requests, run_conversation_requests. auto.
    + exists [completion_request
                (messages (snd (dispatch_all now registry (call :: calls)
                   (snd (append (serialize_message (Obj rm))
                      (snd (run_conversation create client
                              (Dict <$> messages s) model
                              (Some tools_schema) "auto" s)))))))
                model None "none"].
      rewrite take_reply_requests, run_conversation_requests.
      rewrite dispatch_all_requests. simpl requests at 1.
      rewrite run_conversation_requests. rewrite <- app_assoc. auto.
    + exists []. rewrite take_reply_requests, run_conversation_requests. auto.
  - exists []. simpl snd. rewrite run_conversation_requests. auto.
Qed.

Lemma respond_messages_prefix client model s :
  messages s `prefix_of`
    messages (snd (respond create now registry client model s)).
Proof.
  rewrite respond_cases. cbv zeta.
  destruct (fst (run_conversation _ _ _ _ _ _ s)) as [rm|] eqn:Hfirst.
  - destruct (tool_calls rm) as [[|call calls]|] eqn:Hcalls.
    + by rewrite take_reply_messages, run_conversation_messages.
    + rewrite take_reply_messages, run_conversation_messages.
      match goal with |- context [dispatch_all now registry ?c ?s0] =>
        destruct (dispatch_all_messages now registry c s0) as (added & -> & _)
      end.
      simpl messages. rewrite run_conversation_messages, <- app_assoc.
      by eexists.
    + by rewrite take_reply_messages, run_conversation_messages.
  - simpl snd. by rewrite run_conversation_messages.
Qed.

(** X5: every reply is stored with an evaluation.  After what [respond]
    left, the turn appends one assistant message whose content is the reply
    and whose [evaluation] is what [evaluate_response] returned; that is
    [None] when the evaluator's answer has no content.  The evaluation is
    asked for with [EVALUATION_MODEL], whichever model was selected. *)
Theorem reply_is_stored_with_evaluation
    client model prompt s text assistant_message s2 :
  nonempty prompt = true →
  respond create now registry client model (with_user_message prompt s) =
    ((text, Some assistant_message), s2) →
  ∃ evaluation,
    messages (snd (handle_user_input create now registry (Some client) model
                     (Some prompt) s)) =
      messages s2 ++
        [<["evaluation" := evaluation]> (plain_message "assistant" text)] ∧
    evaluation =
      match first_choice (create client (length (requests s2))
              (evaluation_request prompt text EVALUATION_MODEL)) with
      | Returned message =>
          match content message with Some t => VStr t | None => VNone end
      | Raised e => VStr ("Evaluation failed: " +:+ e)
      end ∧
    requests (snd (handle_user_input create now registry (Some client) model
                     (Some prompt) s)) =
      requests s2 ++ [evaluation_request prompt text EVALUATION_MODEL] ∧
    req_model (evaluation_request prompt text EVALUATION_MODEL) =
      "llama3-8b-8192".
Proof.
  intros Hp Hreply.
  destruct (turn_with_reply client model prompt s text assistant_message s2
              Hp Hreply) as (_ & Hm & Hr).
  eexists. split; [exact Hm|]. split; [|split; [exact Hr|reflexivity]].
  rewrite evaluate_response_result.
  destruct (first_choice _) as [m|]; [|reflexivity].
  by destruct (content m).
Qed.

(** X6: a turn whose first completion asks for no tool and has a text adds
    exactly two messages to the store, the user's and the assistant's with
    its evaluation, and sends exactly two requests, the completion and the
    evaluation. *)
Theorem direct_reply_turn
    client model prompt s response_message text :
  nonempty prompt = true →
  fst (run_conversation create client
         (Dict <$> messages (with_user_message prompt s)) model
         (Some tools_schema) "auto" (with_user_message prompt s)) =
    Some response_message →
  tool_calls response_message = None ∨ tool_calls response_message = Some [] →
  content response_message = Some text →
  nonempty text = true →
  ∃ evaluation,
    messages (snd (handle_user_input create now registry (Some client) model
                     (Some prompt) s)) =
      messages s ++
        [plain_message "user" prompt;
         <["evaluation" := evaluation]> (plain_message "assistant" text)] ∧
    requests (snd (handle_user_input create now registry (Some client) model
                     (Some prompt) s)) =
      requests s ++
        [completion_request (messages s ++ [plain_message "user" prompt]) model
           (Some tools_schema) "auto";
         evaluation_request prompt text EVALUATION_MODEL].
Proof.
  intros Hp Hfirst Hcalls Hcontent Htext.
  assert (respond create now registry client model (with_user_message prompt s) =
          take_reply (Some response_message)
            (snd (run_conversation create client
                    (Dict <$> messages (with_user_message prompt s)) model
                    (Some tools_schema) "auto" (with_user_message prompt s))))
    as Hrespond.
  { rewrite respond_cases. cbv zeta. rewrite Hfirst.
    destruct Hcalls as [-> | ->]; reflexivity. }
  unfold take_reply in Hrespond. rewrite Hcontent, Htext in Hrespond.
  unfold bind, show, ret in Hrespond.
  destruct (turn_with_reply client model prompt s _ _ _ Hp Hrespond)
    as (_ & Hm & Hr).
  eexists. split.
  - rewrite Hm. cbn [messages]. rewrite run_conversation_messages.
    rewrite with_user_message_messages, <- app_assoc. reflexivity.
  - rewrite Hr. cbn [requests]. rewrite run_conversation_requests.
    rewrite with_user_message_requests, with_user_message_messages.
    by rewrite <- app_assoc.
Qed.

(** X7: a turn whose first completion asks for tools and that ends with a
    reply stores, in this order, the user message, the assistant message with
    the tool calls, one tool message per call that names a registered tool,
    and the assistant reply with its evaluation; it sends exactly three
    requests. *)
Theorem tool_turn_with_reply
    client model prompt s response_message call calls text assistant_message :
  nonempty prompt = true →
  fst (run_conversation create client
         (Dict <$> messages (with_user_message prompt s)) model
         (Some tools_schema) "auto" (with_user_message prompt s)) =
    Some response_message →
  tool_calls response_message = Some (call :: calls) →
  fst (respond create now registry client model (with_user_message prompt s)) =
    (text, Some assistant_message) →
  ∃ results evaluation,
    messages (snd (handle_user_input create now registry (Some client) model
                     (Some prompt) s)) =
      messages s ++
        plain_message "user" prompt ::
        serialize_message (Obj response_message) ::
        results ++
        [<["evaluation" := evaluation]> (plain_message "assistant" text)] ∧
    Forall is_tool_message results ∧
    length results = registered_calls registry (call :: calls) ∧
    length (requests (snd (handle_user_input create now registry (Some client)
                             model (Some prompt) s))) =
      length (requests s) + 3.
Proof.
  intros Hp Hfirst Hcalls Hreply.
  destruct (respond_with_tools create now registry client model _ _ _ _
              Hfirst Hcalls) as (s3 & Es3 & Hm & Hr & results & Hres & F).
  destruct (respond create now registry client model
              (with_user_message prompt s)) as [reply s2] eqn:Hrespond.
  simpl in Hreply, Hm, Hr. subst reply.
  destruct (turn_with_reply client model prompt s _ _ _ Hp Hrespond)
    as (_ & Hm' & Hr').
  exists results. eexists. split; [|split; [exact F|split]].
  - rewrite Hm', Hm, Hres, with_user_message_messages.
    rewrite <- !app_assoc. reflexivity.
  - pose proof (f_equal length Hres) as Hlen.
    rewrite Es3, dispatch_all_length in Hlen.
    cbn [messages append snd] in Hlen.
    rewrite !length_app, run_conversation_messages in Hlen.
    simpl in Hlen. rewrite length_app in Hlen. simpl in Hlen. simpl. lia.
  - rewrite Hr', Hr, ?with_user_message_requests, !length_app. simpl. lia.
Qed.

(** X8: a turn sends at least one and at most three requests, all after the
    ones sent before; the first is the completion request over the store
    with the user's message at its end. *)
Theorem turn_sends_one_to_three_requests client model prompt s :
  nonempty prompt = true →
  ∃ sent,
    requests (snd (handle_user_input create now registry (Some client) model
                     (Some prompt) s)) =
      requests s ++
        completion_request (messages s ++ [plain_message "user" prompt]) model
          (Some tools_schema) "auto" :: sent ∧
    length sent ≤ 2.
Proof.
  intros Hp.
  destruct (respond_sent client model (with_user_message prompt s))
    as (sent & Hsent & Hlen).
  rewrite with_user_message_requests, with_user_message_messages in Hsent.
  destruct (respond create now registry client model
              (with_user_message prompt s)) as [[text [msg|]] s2] eqn:Hrespond.
  - destruct (turn_with_reply client model prompt s _ _ _ Hp Hrespond)
      as (_ & _ & Hr).
    exists (sent ++ [evaluation_request prompt text EVALUATION_MODEL]).
    rewrite Hr. simpl in Hsent. rewrite Hsent, <- app_assoc.
    split; [reflexivity|]. rewrite length_app. simpl. lia.
  - exists sent. split; [|lia].
    rewrite handle_user_input_cases by assumption. cbv zeta.
    rewrite Hrespond. exact Hsent.
Qed.

(** X9: a turn never removes or rewrites a stored message: whatever the
    client, the prompt and the answers of the API, the store before the turn
    is a prefix of the store after it. *)
Theorem turn_extends_store groq_client model prompt s :
  messages s `prefix_of`
    messages (snd (handle_user_input create now registry groq_client model
                     prompt s)).
Proof.
  destruct prompt as [prompt|]; [|reflexivity].
  destruct (nonempty prompt) eqn:Hp;
    [|unfold handle_user_input; rewrite Hp; reflexivity].
  destruct groq_client as [client|];
    [|unfold handle_user_input; rewrite Hp; reflexivity].
  destruct (handle_user_input_extends create now registry client model prompt
              s Hp) as (more & _ & -> & _).
  destruct (respond_messages_prefix client model (with_user_message prompt s))
    as [added ->].
  rewrite with_user_message_messages, <- !app_assoc. by eexists.
Qed.

End TurnMore.

(** X5, at a concrete input: the model answers at once and the evaluator
    fails. *)
Lemma reply_is_stored_with_evaluation_witness :
  ∃ evaluation,
    messages (snd (handle_user_input api_fails_on_evaluation stopped_clock
                     available_tools (Some demo_client) "llama3-70b-8192"
                     (Some "How do I repeat a step?") fresh)) =
      messages (snd (respond api_fails_on_evaluation stopped_clock
                       available_tools demo_client "llama3-70b-8192"
                       (with_user_message "How do I repeat a step?" fresh))) ++
        [<["evaluation" := evaluation]>
           (plain_message "assistant" "Use a for loop.")] ∧
    evaluation =
      match first_choice (api_fails_on_evaluation demo_client
              (length (requests (snd (respond api_fails_on_evaluation
                         stopped_clock available_tools demo_client
                         "llama3-70b-8192"
                         (with_user_message "How do I repeat a step?" fresh)))))
              (evaluation_request "How do I repeat a step?" "Use a for loop."
                 EVALUATION_MODEL)) with
      | Returned message =>
          match content message with Some t => VStr t | None => VNone end
      | Raised e => VStr ("Evaluation failed: " +:+ e)
      end ∧
    requests (snd (handle_user_input api_fails_on_evaluation stopped_clock
                     available_tools (Some demo_client) "llama3-70b-8192"
                     (Some "How do I repeat a step?") fresh)) =
      requests (snd (respond api_fails_on_evaluation stopped_clock
                       available_tools demo_client "llama3-70b-8192"
                       (with_user_message "How do I repeat a step?" fresh))) ++
        [evaluation_request "How do I repeat a step?" "Use a for loop."
           EVALUATION_MODEL] ∧
    req_model (evaluation_request "How do I repeat a step?" "Use a for loop."
                 EVALUATION_MODEL) = "llama3-8b-8192".
Proof.
  apply (reply_is_stored_with_evaluation api_fails_on_evaluation stopped_clock
           available_tools demo_client "llama3-70b-8192"
           "How do I repeat a step?" fresh "Use a for loop."
           (plain_message "assistant" "Use a for loop.")).
  - reflexivity.
  - reflexivity.
Defined.

(** X6, at a concrete input: the model answers every request with a text. *)
Lemma direct_reply_turn_witness :
  ∃ evaluation,
    messages (snd (handle_user_input api_text stopped_clock available_tools
                     (Some demo_client) DEFAULT_MODEL
                     (Some "How do I repeat a step?") fresh)) =
      messages fresh ++
        [plain_message "user" "How do I repeat a step?";
         <["evaluation" := evaluation]>
           (plain_message "assistant" "Use a for loop.")] ∧
    requests (snd (handle_user_input api_text stopped_clock available_tools
                     (Some demo_client) DEFAULT_MODEL
                     (Some "How do I repeat a step?") fresh)) =
      requests fresh ++
        [completion_request
           (messages fresh ++ [plain_message "user" "How do I repeat a step?"])
           DEFAULT_MODEL (Some tools_schema) "auto";
         evaluation_request "How do I repeat a step?" "Use a for loop."
           EVALUATION_MODEL].
Proof.
  apply (direct_reply_turn api_text stopped_clock available_tools demo_client
           DEFAULT_MODEL "How do I repeat a step?" fresh
           (text_reply "Use a for loop.") "Use a for loop.").
  - reflexivity.
  - reflexivity.
  - left. reflexivity.
  - reflexivity.
  - reflexivity.
Defined.

(** X7, at a concrete input: the model asks for the clock and for a tool
    that is not registered, then answers with a text. *)
Lemma tool_turn_with_reply_witness :
  ∃ results evaluation,
    messages (snd (handle_user_input
                     (api_tools_then_text [clock_call; weather_call])
                     stopped_clock available_tools (Some demo_client)
                     DEFAULT_MODEL (Some "What time is it?") fresh)) =
      messages fresh ++
        plain_message "user" "What time is it?" ::
        serialize_message (Obj (tool_request [clock_call; weather_call])) ::
        results ++
        [<["evaluation" := evaluation]>
           (plain_message "assistant" "It is one o'clock.")] ∧
    Forall is_tool_message results ∧
    length results =
      registered_calls available_tools [clock_call; weather_call] ∧
    length (requests (snd (handle_user_input
                             (api_tools_then_text [clock_call; weather_call])
                             stopped_clock available_tools (Some demo_client)
                             DEFAULT_MODEL (Some "What time is it?") fresh))) =
      length (requests fresh) + 3.
Proof.
  apply (tool_turn_with_reply (api_tools_then_text [clock_call; weather_call])
           stopped_clock available_tools demo_client DEFAULT_MODEL
           "What time is it?" fresh
           (tool_request [clock_call; weather_call]) clock_call [weather_call]
           "It is one o'clock."
           (plain_message "assistant" "It is one o'clock.")).
  - reflexivity.
  - reflexivity.
  - reflexivity.
  - reflexivity.
Defined.

(** X8, at a concrete input: the API is down. *)
Lemma turn_sends_one_to_three_requests_witness :
  ∃ sent,
    requests (snd (handle_user_input api_down stopped_clock available_tools
                     (Some demo_client) DEFAULT_MODEL (Some "hello") fresh)) =
      requests fresh ++
        completion_request (messages fresh ++ [plain_message "user" "hello"])
          DEFAULT_MODEL (Some tools_schema) "auto" :: sent ∧
    length sent ≤ 2.
Proof.
  apply (turn_sends_one_to_three_requests api_down stopped_clock
           available_tools demo_client DEFAULT_MODEL "hello" fresh).
  reflexivity.
Defined.

(** * More on the dispatcher and the credentials *)

(** X10: the loop over the tool calls stores one tool message per call that
    names a registered tool, in the order of the calls and under each call's
    id and name; it runs one tool body per such call and sends nothing. *)
Theorem dispatch_all_results
    (now : nat → datetime) (registry : gmap string Tool) calls s :
  ∃ results,
    messages (snd (dispatch_all now registry calls s)) =
      messages s ++ results ∧
    (λ m : gmap string value, m !! "tool_call_id") <$> results =
      (λ c, Some (VStr (tc_id c))) <$> registered_only registry calls ∧
    (λ m : gmap string value, m !! "name") <$> results =
      (λ c, Some (VStr (fn_name (tc_function c)))) <$>
        registered_only registry calls ∧
    Forall well_formed results ∧
    tool_runs (snd (dispatch_all now registry calls s)) =
      tool_runs s + length (registered_only registry calls) ∧
    requests (snd (dispatch_all now registry calls s)) = requests s.
Proof.
  revert s. induction calls as [|c calls IH]; intros s.
  - exists []. simpl. rewrite app_nil_r.
    repeat split; try reflexivity; [constructor|lia].
  - cbn [dispatch_all registered_only]. unfold bind.
    destruct (registry !! fn_name (tc_function c)) as [tool|] eqn:Hreg.
    + assert (∃ text,
               messages (snd (dispatch now registry c s)) =
                 messages s ++ [tool_message (tc_id c)
                                  (fn_name (tc_function c)) text] ∧
               tool_runs (snd (dispatch now registry c s)) = S (tool_runs s) ∧
               requests (snd (dispatch now registry c s)) = requests s)
        as (text & Hm & Ht & Hr).
      { unfold dispatch, bind, run_tool. rewrite Hreg. simpl.
        destruct (tool (now (tool_runs s))); simpl; eauto. }
      destruct (dispatch now registry c s) as [[] s1]. simpl in Hm, Ht, Hr.
      destruct (IH s1) as (results & Em & Eid & Ename & Ewf & Et & Er).
      exists (tool_message (tc_id c) (fn_name (tc_function c)) text :: results).
      rewrite Em, Hm, Et, Ht, Er, Hr, <- app_assoc.
      rewrite !fmap_cons, Eid, Ename.
      repeat split; try reflexivity; [|simpl; lia].
      constructor; [|assumption]. split; by eexists.
    + rewrite dispatch_unknown by assumption. apply IH.
Qed.

(** X11: [get_groq_client] never builds a client around an empty key, and
    it shows its warning exactly when it builds none; in that case neither
    the environment nor the session holds a non-empty key.  It leaves the
    store, the session's key and the requests as they were. *)
Theorem get_groq_client_outcome (environ_key : option string) s :
  messages (snd (get_groq_client environ_key s)) = messages s ∧
  groq_api_key (snd (get_groq_client environ_key s)) = groq_api_key s ∧
  requests (snd (get_groq_client environ_key s)) = requests s ∧
  match fst (get_groq_client environ_key s) with
  | Some client =>
      nonempty (api_key client) = true ∧
      screen (snd (get_groq_client environ_key s)) = screen s
  | None =>
      truthy environ_key = false ∧ truthy (groq_api_key s) = false ∧
      screen (snd (get_groq_client environ_key s)) =
        screen s ++
          [st_warning "Groq API Key not found. Please enter it in the sidebar."]
  end.
Proof.
  unfold get_groq_client, bind, get_key.
  destruct environ_key as [[|c key]|];
    destruct (groq_api_key s) as [[|c' key']|] eqn:Hkey; simpl;
    rewrite ?Hkey; repeat split; reflexivity.
Qed.

Lemma get_groq_client_preserves_key (environ_key : option string) s :
  groq_api_key (snd (get_groq_client environ_key s)) = groq_api_key s.
Proof.
  unfold get_groq_client, bind, get_key.
  destruct environ_key as [[|c key]|];
    destruct (groq_api_key s) as [[|c' key']|] eqn:Hkey; simpl;
    rewrite ?Hkey; auto.
Qed.

(** X12: the key box.  With no [GROQ_API_KEY], a key typed into the sidebar
    replaces the key the session held and is the client's key; with an empty
    box there is no client and the session is left exactly as it was, with no
    warning, even when it still holds a key.  With [GROQ_API_KEY] set the box
    is not read and the session's key is not touched. *)
Theorem key_box (groq_api_key_input : string) s :
  (if nonempty groq_api_key_input then
     fst (initialise None groq_api_key_input s) =
       Some {| api_key := groq_api_key_input |} ∧
     groq_api_key (snd (initialise None groq_api_key_input s)) =
       Some groq_api_key_input ∧
     screen (snd (initialise None groq_api_key_input s)) = screen s
   else initialise None groq_api_key_input s = (None, s)) ∧
  ∀ key,
    initialise (Some key) groq_api_key_input s =
      get_groq_client (Some key) s ∧
    groq_api_key (snd (initialise (Some key) groq_api_key_input s)) =
      groq_api_key s.
Proof.
  split.
  - unfold initialise, get_groq_client, bind, get_key, store_key.
    destruct groq_api_key_input as [|c key]; simpl; auto.
  - intros key. split; [reflexivity|].
    apply (get_groq_client_preserves_key (Some key)).
Qed.

(** X13: a pass handles input only when there is a prompt that is not
    empty: with no prompt, or an empty one, the session is left exactly as it
    was, whatever the client; and with a prompt but no client the prompt is
    neither stored nor sent, and one error is shown. *)
Theorem no_turn_without_prompt_or_client
    (create : Groq → nat → Request → outcome (list ChatCompletionMessage))
    (now : nat → datetime) (registry : gmap string Tool)
    groq_client model prompt s :
  handle_user_input create now registry groq_client model None s = (tt, s) ∧
  handle_user_input create now registry groq_client model (Some EmptyString) s =
    (tt, s) ∧
  messages (snd (handle_user_input create now registry None model prompt s)) =
    messages s ∧
  requests (snd (handle_user_input create now registry None model prompt s)) =
    requests s ∧
  tool_runs (snd (handle_user_input create now registry None model prompt s)) =
    tool_runs s ∧
  screen (snd (handle_user_input create now registry None model prompt s)) =
    screen s ++
      (if truthy prompt then
         [st_error "Groq client not initialized. Please provide API key."]
       else []).
Proof.
  repeat split; try reflexivity;
    destruct prompt as [[|c prompt]|]; simpl; rewrite ?app_nil_r; reflexivity.
Qed.

(** * The page *)

Lemma render_well_formed (message : gmap string value) :
  well_formed message →
  ∃ widgets, render message = Returned widgets ∧ length widgets ≤ 1.
Proof.
  intros [[role Hrole] [body Hbody]]. unfold render. rewrite Hrole, Hbody.
  destruct (is_text role "user"); [eexists; split; [reflexivity|simpl; lia]|].
  destruct (is_text role "assistant" && _);
    [eexists; split; [reflexivity|simpl; lia]|].
  destruct (is_text role "tool"); eexists; split; try reflexivity; simpl; lia.
Qed.

(** X14: the loop over the history draws a store in which every message has
    a role and a content without raising, with at most one widget per
    message. *)
Theorem display_history_well_formed (history : list (gmap string value)) :
  Forall well_formed history →
  ∃ widgets,
    display_history history = Returned widgets ∧
    length widgets ≤ length history.
Proof.
  induction 1 as [|message rest Hwf _ IH]; [by exists []|].
  destruct (render_well_formed message Hwf) as (w & Ew & Lw).
  destruct IH as (ws & Ews & Lws).
  exists (w ++ ws). simpl. rewrite Ew, Ews.
  split; [reflexivity|]. rewrite length_app. lia.
Qed.

(** X14, at a concrete input: a user message and a stored reply. *)
Lemma display_history_well_formed_witness :
  ∃ widgets,
    display_history
      [plain_message "user" "hello";
       <["evaluation" := VNone]> (plain_message "assistant" "Hi.")] =
      Returned widgets ∧
    length widgets ≤
      length [plain_message "user" "hello";
              <["evaluation" := VNone]> (plain_message "assistant" "Hi.")].
Proof.
  apply display_history_well_formed.
  repeat constructor; by eexists.
Defined.

(** X15: a stored message without a role stops the page: the loop raises
    [KeyError] on it, and neither it nor any message after it is drawn. *)
Theorem display_history_missing_role
    (before after : list (gmap string value)) (message : gmap string value) :
  Forall well_formed before →
  message !! "role" = None →
  display_history (before ++ message :: after) = Raised "'role'".
Proof.
  intros Hwf Hrole. induction Hwf as [|m rest Hm _ IH]; simpl.
  - unfold render. by rewrite Hrole.
  - destruct (render_well_formed m Hm) as (w & -> & _). by rewrite IH.
Qed.

(** X15, at a concrete input: a record without a role between two good
    ones. *)
Lemma display_history_missing_role_witness :
  display_history
    ([plain_message "user" "hello"] ++
       {[ "content" := VStr "orphan" ]} :: [plain_message "user" "again"]) =
    Raised "'role'".
Proof.
  apply display_history_missing_role.
  - repeat constructor; by eexists.
  - reflexivity.
Defined.

(** X16: how stored messages are drawn.  A user message is a bubble with
    its text, a tool message an expander under the tool's name, and a stored
    reply a bubble with its evaluation attached. *)
Theorem render_stored_messages
    (prompt tool_call_id function_name output text : string)
    (evaluation : value) :
  nonempty text = true →
  render (plain_message "user" prompt) = Returned [user_bubble (VStr prompt)] ∧
  render (tool_message tool_call_id function_name output) =
    Returned [tool_expander (VStr function_name) (VStr output)] ∧
  render (<["evaluation" := evaluation]> (plain_message "assistant" text)) =
    Returned [assistant_bubble (VStr text) (Some evaluation)].
Proof.
  intros Htext. repeat split; try reflexivity.
  unfold render, dict_get.
  change ((<["evaluation" := evaluation]> (plain_message "assistant" text))
            !! "role") with (Some (VStr "assistant")).
  change ((<["evaluation" := evaluation]> (plain_message "assistant" text))
            !! "content") with (Some (VStr text)).
  change ((<["evaluation" := evaluation]> (plain_message "assistant" text))
            !! "evaluation") with (Some evaluation).
  simpl. by rewrite Htext.
Qed.

(** X16, at a concrete input. *)
Lemma render_stored_messages_witness :
  render (plain_message "user" "What time is it?") =
    Returned [user_bubble (VStr "What time is it?")] ∧
  render (tool_message "call_1" "get_current_datetime" "{}") =
    Returned [tool_expander (VStr "get_current_datetime") (VStr "{}")] ∧
  render (<["evaluation" := VNone]>
            (plain_message "assistant" "It is one o'clock.")) =
    Returned [assistant_bubble (VStr "It is one o'clock.") (Some VNone)].
Proof. apply render_stored_messages. reflexivity. Defined.





(** X18: the calls the dispatcher goes through are the calls the stored
    assistant message carries: when a response has tool calls, its record
    holds exactly that list under [tool_calls]. *)
Theorem stored_tool_calls (m : ChatCompletionMessage) (calls : list ToolCall) :
  tool_calls m = Some calls →
  serialize_message (Obj m) !! "tool_calls" = Some (VToolCalls calls).
Proof.
  unfold tool_calls. intros H. rewrite lookup_serialize_obj. simpl.
  unfold model_dump, dump_field.
  destruct (cm_tool_calls m) as [[l|]|]; simpl in H; try discriminate H.
  injection H as ->. apply lookup_insert_eq.
Qed.

(** X18, at a concrete input: the request for the clock. *)
Lemma stored_tool_calls_witness :
  serialize_message (Obj (tool_request [clock_call])) !! "tool_calls" =
    Some (VToolCalls [clock_call]).
Proof. apply stored_tool_calls. reflexivity. Defined.

(** * The whole script, run after run *)

Section AppFacts.

Variable environ_key : option string.
Variable create : Groq → nat → Request → outcome (list ChatCompletionMessage).
Variable now : nat → datetime.
Variable registry : gmap string Tool.

Lemma well_formed_plain (role text : string) :
  well_formed (plain_message role text).
Proof. split; by eexists. Qed.

Lemma well_formed_tool (tool_call_id function_name text : string) :
  well_formed (tool_message tool_call_id function_name text).
Proof. split; by eexists. Qed.

Lemma well_formed_serialize (message : Message) :
  well_formed (serialize_message message).
Proof.
  split; destruct message;
    rewrite ?lookup_serialize_obj, ?lookup_serialize_dict; simpl; eauto.
Qed.

Lemma well_formed_evaluation (evaluation : value) (m : gmap string value) :
  well_formed m → well_formed (<["evaluation" := evaluation]> m).
Proof.
  intros [Hr Hc]. split; by rewrite lookup_insert_ne.
Qed.

Lemma dispatch_well_formed tool_call s :
  Forall well_formed (messages s) →
  Forall well_formed (messages (snd (dispatch now registry tool_call s))).
Proof.
  intros H. unfold dispatch, bind, run_tool.
  destruct (registry !! _) as [tool|]; [|assumption].
  simpl. destruct (tool (now (tool_runs s))); simpl;
    apply Forall_app; split; auto;
    apply Forall_singleton, well_formed_tool.
Qed.

Lemma dispatch_all_well_formed calls s :
  Forall well_formed (messages s) →
  Forall well_formed (messages (snd (dispatch_all now registry calls s))).
Proof.
  revert s. induction calls as [|c calls IH]; intros s H; [assumption|].
  simpl. unfold bind. pose proof (dispatch_well_formed c s H) as H1.
  destruct (dispatch now registry c s) as [[] s1]. by apply IH.
Qed.

Lemma respond_well_formed client model s :
  Forall well_formed (messages s) →
  Forall well_formed
    (messages (snd (respond create now registry client model s))).
Proof.
  intros H. rewrite respond_cases. cbv zeta.
  destruct (fst (run_conversation _ _ _ _ _ _ s)) as [rm|] eqn:Hfirst.
  - destruct (tool_calls rm) as [[|call calls]|] eqn:Hcalls.
    + by rewrite take_reply_messages, run_conversation_messages.
    + rewrite take_reply_messages, run_conversation_messages.
      apply dispatch_all_well_formed. unfold append. cbn [messages snd].
      rewrite run_conversation_messages. apply Forall_app. split; [assumption|].
      apply Forall_singleton, (well_formed_serialize (Obj rm)).
    + by rewrite take_reply_messages, run_conversation_messages.
  - simpl snd. by rewrite run_conversation_messages.
Qed.

(** A turn keeps every stored message readable. *)
Lemma handle_user_input_well_formed groq_client model prompt s :
  Forall well_formed (messages s) →
  Forall well_formed
    (messages (snd (handle_user_input create now registry groq_client model
                      prompt s))).
Proof.
  intros H. destruct prompt as [prompt|]; [|assumption].
  destruct (nonempty prompt) eqn:Hp;
    [|unfold handle_user_input; by rewrite Hp].
  destruct groq_client as [client|];
    [|unfold handle_user_input; by rewrite Hp].
  assert (Forall well_formed
            (messages (snd (respond create now registry client model
                              (with_user_message prompt s))))) as Hrespond.
  { apply respond_well_formed. rewrite with_user_message_messages.
    apply Forall_app. split; [assumption|].
    apply Forall_singleton, well_formed_plain. }
  destruct (respond create now registry client model
              (with_user_message prompt s)) as [[text [msg|]] s2] eqn:E.
  - destruct (turn_with_reply create now registry client model prompt s _ _ _
                Hp E) as (_ & -> & _).
    apply Forall_app. split; [exact Hrespond|].
    apply Forall_singleton, well_formed_evaluation, well_formed_plain.
  - rewrite handle_user_input_cases by assumption. cbv zeta. by rewrite E.
Qed.

Lemma api_key_box_messages input s :
  messages (snd (api_key_box environ_key input s)) = messages s ∧
  requests (snd (api_key_box environ_key input s)) = requests s.
Proof.
  unfold api_key_box. destruct environ_key; [by split|].
  destruct (nonempty input); by split.
Qed.

Lemma get_groq_client_messages s :
  messages (snd (get_groq_client environ_key s)) = messages s ∧
  requests (snd (get_groq_client environ_key s)) = requests s.
Proof.
  unfold get_groq_client, bind, get_key.
  destruct environ_key as [[|c key]|];
    destruct (groq_api_key s) as [[|c' key']|]; by split.
Qed.

Lemma display_history_safe (history : list (gmap string value)) :
  Forall well_formed history →
  ∃ widgets, display_history history = Returned widgets.
Proof.
  induction 1 as [|message rest Hwf _ [ws IH]]; [by exists []|].
  destruct (render_well_formed message Hwf) as (w & Ew & _).
  exists (w ++ ws). simpl. by rewrite Ew, IH.
Qed.

(** A pass over a readable store ends with the page drawn or with a rerun,
    and leaves a readable store. *)
Lemma pass_safe i s :
  Forall well_formed (messages s) →
  Forall well_formed (messages (snd (pass environ_key create now registry i s))) ∧
  (if clear_clicked i then
     fst (pass environ_key create now registry i s) = Rerun
   else ∃ widgets,
     fst (pass environ_key create now registry i s) = Rendered widgets).
Proof.
  intros H. unfold pass, bind.
  destruct (api_key_box_messages (typed_key i) s) as [Hm _].
  destruct (api_key_box environ_key (typed_key i) s) as [provided s1].
  simpl in Hm. rewrite <- Hm in H. clear Hm.
  destruct (clear_clicked i); [split; [constructor|reflexivity]|].
  assert (∃ groq_client s2,
            (if provided then get_groq_client environ_key else ret None) s1 =
              (groq_client, s2) ∧ messages s2 = messages s1)
    as (groq_client & s2 & -> & Hm2).
  { destruct provided.
    - destruct (get_groq_client_messages s1) as [Hm _].
      destruct (get_groq_client environ_key s1) as [c s2]. eauto.
    - by exists None, s1. }
  unfold get_messages. rewrite <- Hm2 in H.
  destruct (display_history_safe (messages s2) H) as (widgets & ->).
  pose proof (handle_user_input_well_formed groq_client (chosen_model i)
                (typed_prompt i) s2 H) as Hwf.
  destruct (handle_user_input _ _ _ _ _ _ s2) as [[] s3].
  split; [exact Hwf|by exists widgets].
Qed.

Lemma app_safe i s :
  Forall well_formed (messages s) →
  Forall well_formed (messages (snd (app environ_key create now registry i s))) ∧
  ∃ widgets, fst (app environ_key create now registry i s) = Rendered widgets.
Proof.
  intros H. unfold app, bind.
  destruct (pass_safe i s H) as [Hwf Hres].
  destruct (pass environ_key create now registry i s) as [result s1].
  simpl in Hwf, Hres. destruct (clear_clicked i).
  - subst result.
    apply (pass_safe {| typed_key := typed_key i;
                        chosen_model := chosen_model i;
                        clear_clicked := false;
                        typed_prompt := None |} s1 Hwf).
  - destruct Hres as [widgets ->]. split; [exact Hwf|by exists widgets].
Qed.

(** X19: however the user, the clock, the tools and the API behave, a
    session of the app that starts from a store whose messages all have a
    role and a content never stops on an uncaught [KeyError]: every run ends
    with the page drawn, and the store it leaves is again such a store. *)
Theorem app_session_never_crashes interactions s :
  Forall well_formed (messages s) →
  Forall (λ result, ∃ widgets, result = Rendered widgets)
    (fst (app_session environ_key create now registry interactions s)) ∧
  Forall well_formed
    (messages (snd (app_session environ_key create now registry interactions s))).
Proof.
  revert s. induction interactions as [|i rest IH]; intros s H.
  - split; [constructor|assumption].
  - simpl. unfold bind.
    destruct (app_safe i s H) as [Hwf Hres].
    destruct (app environ_key create now registry i s) as [result s1].
    simpl in Hwf, Hres.
    destruct (IH s1 Hwf) as [Hall Hwf'].
    destruct (app_session environ_key create now registry rest s1)
      as [results s2].
    simpl in *. split; [constructor; assumption|assumption].
Qed.

(** X20: the clear button empties the store whatever it held, even a store
    the page could not draw, and sends nothing; the rerun that follows draws
    an empty page and handles no input. *)
Theorem clear_empties_store i s :
  clear_clicked i = true →
  messages (snd (app environ_key create now registry i s)) = [] ∧
  requests (snd (app environ_key create now registry i s)) = requests s ∧
  fst (app environ_key create now registry i s) = Rendered [].
Proof.
  intros Hclear. unfold app, pass, bind. rewrite Hclear. cbn [clear_clicked].
  unfold api_key_box, get_groq_client, bind, get_key, store_key,
    clear_chat_history, get_messages, ret, show.
  cbn [typed_key typed_prompt chosen_model].
  destruct environ_key as [[|c key]|]; destruct (typed_key i) as [|c' key'];
    destruct (groq_api_key s) as [[|c'' key'']|]; simpl; auto.
Qed.

End AppFacts.

(** X19, at a concrete input: a question, a look at the page, a click on
    the clear button and another look, from a fresh session. *)
Lemma app_session_never_crashes_witness :
  Forall (λ result, ∃ widgets, result = Rendered widgets)
    (fst (app_session None (api_tools_then_text [clock_call]) stopped_clock
            available_tools
            [ {| typed_key := "gsk_demo"; chosen_model := DEFAULT_MODEL;
                 clear_clicked := false;
                 typed_prompt := Some "What time is it?" |};
              {| typed_key := "gsk_demo"; chosen_model := DEFAULT_MODEL;
                 clear_clicked := true; typed_prompt := None |} ]
            fresh)) ∧
  Forall well_formed
    (messages (snd (app_session None (api_tools_then_text [clock_call])
                      stopped_clock available_tools
                      [ {| typed_key := "gsk_demo";
                           chosen_model := DEFAULT_MODEL;
                           clear_clicked := false;
                           typed_prompt := Some "What time is it?" |};
                        {| typed_key := "gsk_demo";
                           chosen_model := DEFAULT_MODEL;
                           clear_clicked := true; typed_prompt := None |} ]
                      fresh))).
Proof. apply app_session_never_crashes. constructor. Defined.

(** X20, at a concrete input: the store holds a record without a role. *)
Lemma clear_empties_store_witness :
  messages (snd (app None api_text stopped_clock available_tools
                   {| typed_key := EmptyString; chosen_model := DEFAULT_MODEL;
                      clear_clicked := true; typed_prompt := None |}
                   broken_store)) = [] ∧
  requests (snd (app None api_text stopped_clock available_tools
                   {| typed_key := EmptyString; chosen_model := DEFAULT_MODEL;
                      clear_clicked := true; typed_prompt := None |}
                   broken_store)) = requests broken_store ∧
  fst (app None api_text stopped_clock available_tools
         {| typed_key := EmptyString; chosen_model := DEFAULT_MODEL;
            clear_clicked := true; typed_prompt := None |}
         broken_store) = Rendered [].
Proof. apply clear_empties_store. reflexivity. Defined.

(** * A run without a client *)

Section RunWithoutClient.

Variable environ_key : option string.
Variable create : Groq → nat → Request → outcome (list ChatCompletionMessage).
Variable now : nat → datetime.
Variable registry : gmap string Tool.

(** The client of a pass is the one [initialise] gives: the key box, then
    [get_groq_client] when a key was provided. *)
Lemma initialise_key_box input s :
  initialise environ_key input s =
    (api_key_provided <- api_key_box environ_key input ;;
     (if api_key_provided then get_groq_client environ_key else ret None)) s.
Proof.
  unfold initialise, api_key_box, bind.
  destruct environ_key; [reflexivity|].
  destruct (nonempty input); reflexivity.
Qed.

Lemma handle_user_input_without_client model prompt s :
  requests (snd (handle_user_input create now registry None model prompt s)) =
    requests s.
Proof. destruct prompt as [[|c prompt]|]; reflexivity. Qed.

Lemma pass_without_client i s :
  fst (initialise environ_key (typed_key i) s) = None →
  requests (snd (pass environ_key create now registry i s)) = requests s.
Proof.
  intros Hnone. rewrite initialise_key_box in Hnone.
  unfold pass, bind in *.
  destruct (api_key_box_messages environ_key (typed_key i) s) as [_ Hr].
  destruct (api_key_box environ_key (typed_key i) s) as [provided s1].
  simpl in Hr. rewrite <- Hr.
  destruct (clear_clicked i); [reflexivity|].
  assert (requests
            (snd ((if provided then get_groq_client environ_key else ret None)
                    s1)) = requests s1) as Hr2.
  { destruct provided; [apply get_groq_client_messages|reflexivity]. }
  destruct ((if provided then get_groq_client environ_key else ret None) s1)
    as [groq_client s2].
  simpl in Hnone, Hr2. subst groq_client. rewrite <- Hr2.
  unfold get_messages. destruct (display_history (messages s2)); [|reflexivity].
  pose proof (handle_user_input_without_client (chosen_model i)
                (typed_prompt i) s2) as Hh.
  destruct (handle_user_input _ _ _ _ _ _ s2) as [[] s3]. exact Hh.
Qed.

Lemma pass_without_prompt i s :
  typed_prompt i = None →
  requests (snd (pass environ_key create now registry i s)) = requests s.
Proof.
  intros Hprompt. unfold pass, bind.
  destruct (api_key_box_messages environ_key (typed_key i) s) as [_ Hr].
  destruct (api_key_box environ_key (typed_key i) s) as [provided s1].
  simpl in Hr. rewrite <- Hr.
  destruct (clear_clicked i); [reflexivity|].
  assert (requests
            (snd ((if provided then get_groq_client environ_key else ret None)
                    s1)) = requests s1) as Hr2.
  { destruct provided; [apply get_groq_client_messages|reflexivity]. }
  destruct ((if provided then get_groq_client environ_key else ret None) s1)
    as [groq_client s2].
  simpl in Hr2. rewrite <- Hr2, Hprompt.
  unfold get_messages. destruct (display_history (messages s2)); reflexivity.
Qed.

(** C9, as the code has it: a non-empty [GROQ_API_KEY] is the client's key
    whatever the session holds; the session's key is used only when the
    variable is unset or empty; when neither gives a non-empty key there is
    no client.  A run of the script whose initialisation gives no client
    sends no request, with or without the rerun that a click on the clear
    button brings. *)
Theorem credential_resolution i s :
  fst (get_groq_client environ_key s) =
    (if truthy environ_key then Build_Groq <$> environ_key
     else if truthy (groq_api_key s) then Build_Groq <$> groq_api_key s
     else None) ∧
  (fst (initialise environ_key (typed_key i) s) = None →
   requests (snd (pass environ_key create now registry i s)) = requests s ∧
   requests (snd (app environ_key create now registry i s)) = requests s).
Proof.
  split.
  - unfold get_groq_client, bind, get_key.
    destruct environ_key as [[|c key]|];
      destruct (groq_api_key s) as [[|c' key']|]; reflexivity.
  - intros Hnone. pose proof (pass_without_client i s Hnone) as Hpass.
    split; [exact Hpass|].
    unfold app, bind.
    destruct (pass environ_key create now registry i s) as [result s1].
    simpl in Hpass. rewrite <- Hpass.
    destruct result; try reflexivity.
    by apply pass_without_prompt.
Qed.

End RunWithoutClient.

(** C9, at a concrete input: no variable, nothing typed into the sidebar,
    and a question in the chat input. *)
Lemma credential_resolution_witness :
  fst (get_groq_client None fresh) = None ∧
  requests (snd (pass None api_down stopped_clock available_tools
                   {| typed_key := EmptyString; chosen_model := DEFAULT_MODEL;
                      clear_clicked := false; typed_prompt := Some "hello" |}
                   fresh)) = requests fresh ∧
  requests (snd (app None api_down stopped_clock available_tools
                   {| typed_key := EmptyString; chosen_model := DEFAULT_MODEL;
                      clear_clicked := false; typed_prompt := Some "hello" |}
                   fresh)) = requests fresh.
Proof.
  destruct (credential_resolution None api_down stopped_clock available_tools
              {| typed_key := EmptyString; chosen_model := DEFAULT_MODEL;
                 clear_clicked := false; typed_prompt := Some "hello" |}
              fresh) as [Hclient Hrun].
  split; [exact Hclient|]. apply Hrun. reflexivity.
Defined.
